(** * CineAI dashboard client: synchronization store, take auto-selection
      and behavioural categorizer

    A shallow embedding of
      - the zustand store [useProjectStore] (fetchProject, fetchTimeline,
        getProcessingStatus, setProcessingProgress, uploadMedia,
        fetchDashboardStats),
      - the [fetchTakes] auto-select logic of [AIMonitor.tsx],
      - the [categorizedResults] memo of [EmotionPerformance.tsx],
    together with the properties stated about them. *)

From Stdlib Require Import List String Ascii ZArith QArith Bool Lia.
From Stdlib Require Import DecimalString.
From Equations Require Import Equations.
Import ListNotations.

Set Implicit Arguments.
Local Open Scope string_scope.
Local Open Scope Z_scope.
Local Open Scope list_scope.

(* ##################################################################### *)
(** * Part I: the model *)
(* ##################################################################### *)

(* ===================================================================== *)
(** ** JavaScript values that cross the module boundary *)
(* ===================================================================== *)

(** Payloads typed [unknown] in the store (timeline, processing status,
    upload result) are JSON documents decoded by the HTTP client. *)
#[local] Unset Elimination Schemes.
Inductive Json : Type :=
| JNull
| JBool (b : bool)
| JNum (q : Q)
| JStr (s : string)
| JArr (items : list Json)
| JObj (fields : list (string * Json)).
#[local] Set Elimination Schemes.

(** What a rejected promise carries ([err : unknown] in the handlers):
    either an [Error] instance, with its [message], or any other value. *)
Inductive Thrown : Type :=
| ErrorInstance (message : string)
| OtherValue (v : Json).

(** [err instanceof Error ? err.message : 'Unknown error'] *)
Definition error_text (err : Thrown) : string :=
  match err with
  | ErrorInstance message => message
  | OtherValue _ => "Unknown error"
  end.

(** The response envelope [{ data: T }] of the HTTP client facade. *)
Record AxiosResponse (T : Type) : Type := { data : T }.

(** How a request promise settles. *)
Inductive Settled (T : Type) : Type :=
| Fulfilled (response : AxiosResponse T)
| Rejected (reason : Thrown).
Arguments Rejected {T} reason.

Definition is_fulfilled {T} (p : Settled T) : bool :=
  match p with Fulfilled _ => true | Rejected _ => false end.

(* ===================================================================== *)
(** ** Store state ([interface ProjectState]) *)
(* ===================================================================== *)

Record Issues : Type := {
  focus : Z;
  audio_issues : Z;
  continuity : Z;
  narrative : Z
}.

(** Modelled from the spec: the type [DashboardStats] is imported from
    [../lib/api], which is not among the sources.  The fields are the
    snapshot metrics the data model lists (progress and confidence
    percentages, issue counts by category, pending and approved counts,
    total takes, total footage string). *)
Record DashboardStats : Type := {
  stats_processingProgress : Q;
  stats_aiConfidenceHealth : Q;
  stats_issues : Issues;
  pendingReview : Z;
  approvedCount : Z;
  totalTakes : Z;
  stats_totalFootage : string
}.

(** The project resource returned by [api.projects.getCurrent()]; only
    the four fields the store reads are kept. [description] may be
    missing or null. *)
Record ProjectDto : Type := {
  id : Z;
  name : string;
  dto_description : option string;
  created_at : string
}.

Record File : Type := { file_name_of : string; file_bytes : list Byte.byte }.

Record ProjectState : Type := {
  projectId : option Z;
  projectName : string;
  description : string;
  shootDate : string;
  cameras : list string;
  totalFootage : string;
  processingProgress : Q;
  aiConfidenceHealth : Q;
  loading : bool;
  error : option string;
  issues : Issues;
  dashboardStats : option DashboardStats;
  lastUpdated : option Z;
  timeline : Json
}.

(** The initial state given to [create]. *)
Definition initialState : ProjectState := {|
  projectId := None;
  projectName := "Loading...";
  description := "";
  shootDate := "";
  cameras := [];
  totalFootage := "0h 0m 0s";
  processingProgress := 0%Q;
  aiConfidenceHealth := 0%Q;
  loading := false;
  error := None;
  issues := {| focus := 0; audio_issues := 0; continuity := 0; narrative := 0 |};
  dashboardStats := None;
  lastUpdated := None;
  timeline := JNull
|}.

(** *** The partial updates passed to [set] *)

(** [{ loading: true, error: null }] *)
Definition patch_start (s : ProjectState) : ProjectState := {|
  projectId := projectId s; projectName := projectName s;
  description := description s; shootDate := shootDate s;
  cameras := cameras s; totalFootage := totalFootage s;
  processingProgress := processingProgress s;
  aiConfidenceHealth := aiConfidenceHealth s;
  loading := true; error := None;
  issues := issues s; dashboardStats := dashboardStats s;
  lastUpdated := lastUpdated s; timeline := timeline s
|}.

(** [{ error: msg, loading: false }] *)
Definition patch_failed (msg : string) (s : ProjectState) : ProjectState := {|
  projectId := projectId s; projectName := projectName s;
  description := description s; shootDate := shootDate s;
  cameras := cameras s; totalFootage := totalFootage s;
  processingProgress := processingProgress s;
  aiConfidenceHealth := aiConfidenceHealth s;
  loading := false; error := Some msg;
  issues := issues s; dashboardStats := dashboardStats s;
  lastUpdated := lastUpdated s; timeline := timeline s
|}.

(** [{ loading: false }] *)
Definition patch_done (s : ProjectState) : ProjectState := {|
  projectId := projectId s; projectName := projectName s;
  description := description s; shootDate := shootDate s;
  cameras := cameras s; totalFootage := totalFootage s;
  processingProgress := processingProgress s;
  aiConfidenceHealth := aiConfidenceHealth s;
  loading := false; error := error s;
  issues := issues s; dashboardStats := dashboardStats s;
  lastUpdated := lastUpdated s; timeline := timeline s
|}.

(** [{ projectId, projectName, description, shootDate, loading: false }] *)
Definition patch_project (pid : Z) (pname pdesc pdate : string)
    (s : ProjectState) : ProjectState := {|
  projectId := Some pid; projectName := pname;
  description := pdesc; shootDate := pdate;
  cameras := cameras s; totalFootage := totalFootage s;
  processingProgress := processingProgress s;
  aiConfidenceHealth := aiConfidenceHealth s;
  loading := false; error := error s;
  issues := issues s; dashboardStats := dashboardStats s;
  lastUpdated := lastUpdated s; timeline := timeline s
|}.

(** [{ timeline: payload, loading: false }] *)
Definition patch_timeline (payload : Json) (s : ProjectState) : ProjectState := {|
  projectId := projectId s; projectName := projectName s;
  description := description s; shootDate := shootDate s;
  cameras := cameras s; totalFootage := totalFootage s;
  processingProgress := processingProgress s;
  aiConfidenceHealth := aiConfidenceHealth s;
  loading := false; error := error s;
  issues := issues s; dashboardStats := dashboardStats s;
  lastUpdated := lastUpdated s; timeline := payload
|}.

(** [{ processingProgress: progress }] *)
Definition patch_progress (progress : Q) (s : ProjectState) : ProjectState := {|
  projectId := projectId s; projectName := projectName s;
  description := description s; shootDate := shootDate s;
  cameras := cameras s; totalFootage := totalFootage s;
  processingProgress := progress;
  aiConfidenceHealth := aiConfidenceHealth s;
  loading := loading s; error := error s;
  issues := issues s; dashboardStats := dashboardStats s;
  lastUpdated := lastUpdated s; timeline := timeline s
|}.

(** [{ dashboardStats: stats, lastUpdated: now, loading: false }] *)
Definition patch_stats (stats : DashboardStats) (now : Z)
    (s : ProjectState) : ProjectState := {|
  projectId := projectId s; projectName := projectName s;
  description := description s; shootDate := shootDate s;
  cameras := cameras s; totalFootage := totalFootage s;
  processingProgress := processingProgress s;
  aiConfidenceHealth := aiConfidenceHealth s;
  loading := false; error := error s;
  issues := issues s; dashboardStats := Some stats;
  lastUpdated := Some now; timeline := timeline s
|}.

(** The cached domain fields: everything but [loading] and [error]. *)
Record Domain : Type := {
  d_projectId : option Z;
  d_projectName : string;
  d_description : string;
  d_shootDate : string;
  d_cameras : list string;
  d_totalFootage : string;
  d_processingProgress : Q;
  d_aiConfidenceHealth : Q;
  d_issues : Issues;
  d_dashboardStats : option DashboardStats;
  d_lastUpdated : option Z;
  d_timeline : Json
}.

Definition domain (s : ProjectState) : Domain := {|
  d_projectId := projectId s; d_projectName := projectName s;
  d_description := description s; d_shootDate := shootDate s;
  d_cameras := cameras s; d_totalFootage := totalFootage s;
  d_processingProgress := processingProgress s;
  d_aiConfidenceHealth := aiConfidenceHealth s;
  d_issues := issues s; d_dashboardStats := dashboardStats s;
  d_lastUpdated := lastUpdated s; d_timeline := timeline s
|}.

(* ===================================================================== *)
(** ** The world an action runs in, and the async/exception monad *)
(* ===================================================================== *)

Inductive Endpoint : Type :=
| ProjectsGetCurrent
| ProjectsGetDashboardStats
| TimelineGet
| ProcessingGetStatus (takeId : Z)
| MediaUpload (file : File).

(** Observable steps of an action. *)
Inductive Event : Type :=
| EvSet                               (* a call to [set] *)
| EvRequest (e : Endpoint)            (* a request handed to the facade *)
| EvTimeout (ms : Z)                  (* an awaited [setTimeout] *)
| EvConsoleLog (line : string)
| EvConsoleError (line : string) (err : Thrown).

(** Every event is recorded with the store as it is right after it. *)
Definition Entry : Type := (Event * ProjectState)%type.

Record World : Type := {
  store : ProjectState;
  clock : Z;                (* what [new Date()] reads *)
  requests : nat;           (* requests issued so far *)
  trace : list Entry        (* oldest first *)
}.

(** The HTTP client facade (external collaborator).  Each request function
    is scripted by the sequence number of the request, so that a backend
    may answer differently from one attempt to the next. *)
Record Backend : Type := {
  projects_getCurrent : nat -> Settled ProjectDto;
  projects_getDashboardStats : nat -> Settled DashboardStats;
  timeline_get : nat -> Settled Json;
  processing_getStatus : Z -> nat -> Settled Json;
  media_upload : File -> nat -> Settled Json;
  latency : nat -> Z
}.

(** How an async function completes: it returns or it throws. *)
Inductive Completion (A : Type) : Type :=
| Returned (a : A)
| Threw (err : Thrown).
Arguments Threw {A} err.

Definition M (A : Type) : Type := World -> Completion A * World.

Definition ret {A} (a : A) : M A := fun w => (Returned a, w).

Definition bind {A B} (m : M A) (k : A -> M B) : M B :=
  fun w =>
    match m w with
    | (Returned a, w1) => k a w1
    | (Threw err, w1) => (Threw err, w1)
    end.

Definition throw {A} (err : Thrown) : M A := fun w => (Threw err, w).

(** [try { body } catch (err) { handler }] *)
Definition try_catch {A} (body : M A) (handler : Thrown -> M A) : M A :=
  fun w =>
    match body w with
    | (Returned a, w1) => (Returned a, w1)
    | (Threw err, w1) => handler err w1
    end.

Declare Scope js_scope.
Delimit Scope js_scope with js.
Notation "x <- m ;; k" := (bind m (fun x => k))
  (at level 61, m at next level, right associativity) : js_scope.
Notation "m ;; k" := (bind m (fun _ => k))
  (at level 61, right associativity) : js_scope.

Definition record (ev : Event) (s : ProjectState) (w : World) : list Entry :=
  trace w ++ [(ev, s)].

(** zustand's [set]: merge the partial update into the state. *)
Definition set (patch : ProjectState -> ProjectState) : M unit :=
  fun w =>
    let s := patch (store w) in
    (Returned tt,
     {| store := s; clock := clock w; requests := requests w;
        trace := record EvSet s w |}).

(** [await api.<endpoint>(...)] *)
Definition request {T} (lat : nat -> Z) (e : Endpoint)
    (script : nat -> Settled T) : M (AxiosResponse T) :=
  fun w =>
    let i := requests w in
    let w1 := {| store := store w; clock := clock w + lat i;
                 requests := S i;
                 trace := record (EvRequest e) (store w) w |} in
    match script i with
    | Fulfilled response => (Returned response, w1)
    | Rejected reason => (Threw reason, w1)
    end.

(** [await new Promise(resolve => setTimeout(resolve, ms))] *)
Definition sleep (ms : Z) : M unit :=
  fun w =>
    (Returned tt,
     {| store := store w; clock := clock w + ms; requests := requests w;
        trace := record (EvTimeout ms) (store w) w |}).

Definition console_log (line : string) : M unit :=
  fun w =>
    (Returned tt,
     {| store := store w; clock := clock w; requests := requests w;
        trace := record (EvConsoleLog line) (store w) w |}).

Definition console_error (line : string) (err : Thrown) : M unit :=
  fun w =>
    (Returned tt,
     {| store := store w; clock := clock w; requests := requests w;
        trace := record (EvConsoleError line err) (store w) w |}).

(** [new Date()] *)
Definition new_Date : M Z := fun w => (Returned (clock w), w).

(** Template literal rendering of an integer. *)
Definition show_Z (z : Z) : string := NilZero.string_of_int (Z.to_int z).

(* ===================================================================== *)
(** ** The store actions *)
(* ===================================================================== *)

Section Store.

(** The backend the facade talks to. *)
Variable api : Backend.

(** [new Date(created_at).toLocaleDateString()]: locale dependent, left
    to the host environment. *)
Variable toLocaleDateString : string -> string.

Local Open Scope js_scope.

Definition api_projects_getCurrent : M (AxiosResponse ProjectDto) :=
  request (latency api) ProjectsGetCurrent (projects_getCurrent api).

Definition api_projects_getDashboardStats : M (AxiosResponse DashboardStats) :=
  request (latency api) ProjectsGetDashboardStats (projects_getDashboardStats api).

Definition api_timeline_get : M (AxiosResponse Json) :=
  request (latency api) TimelineGet (timeline_get api).

Definition api_processing_getStatus (takeId : Z) : M (AxiosResponse Json) :=
  request (latency api) (ProcessingGetStatus takeId) (processing_getStatus api takeId).

Definition api_media_upload (file : File) : M (AxiosResponse Json) :=
  request (latency api) (MediaUpload file) (media_upload api file).

(** [project.description || ""] *)
Definition description_or_empty (d : option string) : string :=
  match d with
  | Some s => s
  | None => ""
  end.

Definition fetchProject : M unit :=
  set patch_start ;;
  try_catch
    (response <- api_projects_getCurrent ;;
     let project := data response in
     set (patch_project (id project) (name project)
            (description_or_empty (dto_description project))
            (toLocaleDateString (created_at project))))
    (fun err => set (patch_failed (error_text err))).

Definition fetchTimeline : M unit :=
  set patch_start ;;
  try_catch
    (response <- api_timeline_get ;;
     set (patch_timeline (data response)))
    (fun err => set (patch_failed (error_text err))).

Definition getProcessingStatus (takeId : Z) : M Json :=
  try_catch
    (response <- api_processing_getStatus takeId ;;
     ret (data response))
    (fun err =>
       console_error "Failed to fetch processing status" err ;;
       ret JNull).

Definition setProcessingProgress (progress : Q) : M unit :=
  set (patch_progress progress).

Definition uploadMedia (file : File) : M Json :=
  set patch_start ;;
  try_catch
    (response <- api_media_upload file ;;
     set patch_done ;;
     ret (data response))
    (fun err =>
       set (patch_failed (error_text err)) ;;
       throw err).

Definition exhausted_message : string :=
  "Failed to fetch dashboard statistics. Please refresh the page.".

Definition retry_line (retries : Z) : string :=
  ("Retrying dashboard stats fetch... (" ++ show_Z retries ++ " attempts left)")%string.

(** One pass through the [try] block of [fetchDashboardStats]. *)
Definition stats_attempt : M unit :=
  set patch_start ;;
  response <- api_projects_getDashboardStats ;;
  now <- new_Date ;;
  set (patch_stats (data response) now).

(** Final failure after all retries. *)
Definition stats_give_up (err : Thrown) : M unit :=
  set (patch_failed exhausted_message) ;;
  console_error "Dashboard stats error:" err.

Equations? fetchDashboardStats (retries : Z) : M unit
  by wf (Z.to_nat retries) lt :=
fetchDashboardStats retries :=
  try_catch stats_attempt
    (fun err =>
       match Z_gt_dec retries 0 with
       | left _ =>
           console_log (retry_line retries) ;;
           sleep 2000 ;;
           fetchDashboardStats (retries - 1)
       | right _ => stats_give_up err
       end).
Proof. lia. Qed.

(** The default parameter, [retries = 3]. *)
Definition fetchDashboardStats_default : M unit := fetchDashboardStats 3.

End Store.

(* ===================================================================== *)
(** ** Reading a run: emitted entries, attempts, delays *)
(* ===================================================================== *)

Definition is_stats_request (ev : Event) : bool :=
  match ev with
  | EvRequest ProjectsGetDashboardStats => true
  | _ => false
  end.

Definition is_request (ev : Event) : bool :=
  match ev with
  | EvRequest _ => true
  | _ => false
  end.

Definition is_timeout (ev : Event) : bool :=
  match ev with
  | EvTimeout _ => true
  | _ => false
  end.

Definition is_set (ev : Event) : bool :=
  match ev with
  | EvSet => true
  | _ => false
  end.

(** Number of stats fetch attempts among the entries. *)
Definition attempts (l : list Entry) : nat :=
  List.length (filter (fun en => is_stats_request (fst en)) l).

(** The awaited delays, in order. *)
Definition delays (l : list Entry) : list Z :=
  flat_map (fun en => match fst en with EvTimeout ms => [ms] | _ => [] end) l.

(** The requests and timeouts, in order, everything else dropped. *)
Definition io_steps (l : list Entry) : list Event :=
  filter (fun ev => is_request ev || is_timeout ev) (map fst l).

(** The store shows a fetch in flight: loading, and no error. *)
Definition in_flight (en : Entry) : Prop :=
  loading (snd en) = true /\ error (snd en) = None.

(** A backend whose stats endpoint rejects every request. *)
Definition stats_always_fail (api : Backend) : Prop :=
  forall i, is_fulfilled (projects_getDashboardStats api i) = false.

(** [retry_rounds n]: what the network and the timers see when [n]
    retries follow a first attempt. *)
Fixpoint retry_rounds (n : nat) : list Event :=
  match n with
  | O => []
  | S k => EvTimeout 2000 :: EvRequest ProjectsGetDashboardStats :: retry_rounds k
  end.

(* ===================================================================== *)
(** ** The worlds the retry loop passes through *)
(* ===================================================================== *)

Section RetryWorlds.

Variable api : Backend.

(** The world right after [set({loading: true, error: null})] and the
    request of one attempt. *)
Definition attempted (w : World) : World := {|
  store := patch_start (store w);
  clock := clock w + latency api (requests w);
  requests := S (requests w);
  trace := trace w ++ [(EvSet, patch_start (store w));
                       (EvRequest ProjectsGetDashboardStats, patch_start (store w))]
|}.

Definition succeeded_with (stats : DashboardStats) (w : World) : World :=
  let w1 := attempted w in
  let s := patch_stats stats (clock w1) (store w1) in
  {| store := s; clock := clock w1; requests := requests w1;
     trace := trace w1 ++ [(EvSet, s)] |}.

Definition waited (retries : Z) (w : World) : World :=
  let w1 := attempted w in
  {| store := store w1; clock := clock w1 + 2000; requests := requests w1;
     trace := trace w1 ++ [(EvConsoleLog (retry_line retries), store w1);
                           (EvTimeout 2000, store w1)] |}.

Definition gave_up (err : Thrown) (w : World) : World :=
  let w1 := attempted w in
  let s := patch_failed exhausted_message (store w1) in
  {| store := s; clock := clock w1; requests := requests w1;
     trace := trace w1 ++ [(EvSet, s);
                           (EvConsoleError "Dashboard stats error:" err, s)] |}.

End RetryWorlds.

(* ===================================================================== *)
(** ** The store's actions as one interface *)
(* ===================================================================== *)

Inductive Action : Type :=
| FetchProject
| FetchTimeline
| GetProcessingStatus (takeId : Z)
| SetProcessingProgress (progress : Q)
| UploadMedia (file : File)
| FetchDashboardStats (retries : Z).

(** The actions that report through the global [loading]/[error] fields:
    those whose body calls [set] with these two keys. *)
Definition global_fetch (a : Action) : bool :=
  match a with
  | FetchProject | FetchTimeline | UploadMedia _ | FetchDashboardStats _ => true
  | GetProcessingStatus _ | SetProcessingProgress _ => false
  end.

(** [answered_within script i n]: one of the [n+1] requests numbered
    [i], [i+1], ..., [i+n] is fulfilled. *)
Fixpoint answered_within {T} (script : nat -> Settled T) (i n : nat) : bool :=
  is_fulfilled (script i) ||
  match n with
  | O => false
  | S k => answered_within script (S i) k
  end.

(** The entries a run added to the trace. *)
Definition emitted (w w' : World) : list Entry :=
  skipn (List.length (trace w)) (trace w').

Section Actions.

Variable api : Backend.
Variable toLocaleDateString : string -> string.

Local Open Scope js_scope.

(** A promise of [void] resolves to [undefined] ([None]). *)
Definition perform (a : Action) : M (option Json) :=
  match a with
  | FetchProject => fetchProject api toLocaleDateString ;; ret None
  | FetchTimeline => fetchTimeline api ;; ret None
  | GetProcessingStatus takeId => v <- getProcessingStatus api takeId ;; ret (Some v)
  | SetProcessingProgress progress => setProcessingProgress progress ;; ret None
  | UploadMedia file => v <- uploadMedia api file ;; ret (Some v)
  | FetchDashboardStats retries => fetchDashboardStats api retries ;; ret None
  end.

(** Whether the backend lets the action succeed when started in [w]:
    its request is fulfilled; for the stats fetch, one of the
    [retries + 1] attempts is. *)
Definition resolves (a : Action) (w : World) : bool :=
  match a with
  | FetchProject => is_fulfilled (projects_getCurrent api (requests w))
  | FetchTimeline => is_fulfilled (timeline_get api (requests w))
  | GetProcessingStatus takeId =>
      is_fulfilled (processing_getStatus api takeId (requests w))
  | SetProcessingProgress _ => true
  | UploadMedia file => is_fulfilled (media_upload api file (requests w))
  | FetchDashboardStats retries =>
      answered_within (projects_getDashboardStats api) (requests w)
        (Z.to_nat retries)
  end.

(** The shape of a run that keeps the sync-state discipline: a first
    [set] raising [loading] and clearing [error]; then steps during
    which the store stays in flight; then one resolving [set], after
    which only console output follows; the resolved store is not
    loading, and carries an error exactly when the fetch failed, all
    other fields being those of the start. *)
Definition settles (ok : bool) (w w' : World) : Prop :=
  exists (body tail : list Entry) (s : ProjectState),
    trace w' = trace w ++ body ++ (EvSet, s) :: tail /\
    hd_error body = Some (EvSet, patch_start (store w)) /\
    Forall in_flight body /\
    Forall (fun en => snd en = s /\ is_request (fst en) = false) tail /\
    store w' = s /\
    loading s = false /\
    if ok then error s = None
    else exists msg, s = patch_failed msg (store w).

End Actions.

(* ===================================================================== *)
(** ** The sync-state invariant *)
(* ===================================================================== *)

(** The invariant of the data model, read on one run of action [a] from
    world [w]:
    - the run does not leave [loading] raised;
    - at every fetch attempt (request) of the run, [error] is null;
    - a non-null [error] at the end means the action failed terminally. *)
Definition sync_state_invariant
    (api : Backend) (toLocaleDateString : string -> string)
    (a : Action) (w : World) : Prop :=
  let w' := snd (perform api toLocaleDateString a w) in
  (loading (store w) = false -> loading (store w') = false) /\
  (forall e s, In (EvRequest e, s) (emitted w w') -> error s = None) /\
  (error (store w') <> None -> resolves api a w = false).

(* ===================================================================== *)
(** ** Takes, as the views receive them from [api.media.listTakes()] *)
(* ===================================================================== *)

(** Every key of the decoded JSON may be missing at run time; a missing (or
    null) key is [None].  Where the code counts the keys of an object (the
    metadata), the keys that carry no value are kept beside the fields.  Numbers arrive as JSON literals, that is as finite
    decimals: they are kept as rationals, on which the comparisons with
    [1.0] below are exact, and NaN does not occur. *)
Record BehavioralMarkers : Type := {
  hesitation_duration : option Q;
  laughter_detected : option bool
}.

Record Audio : Type := {
  transcript : option string;
  quality_score : option Q;
  behavioral_markers : option BehavioralMarkers
}.

Record AiMetadata : Type := {
  cv : option Json;
  audio : option Audio;
  nlp : option Json;
  score_breakdown : option Json;
  emotion : option string;
  (** The own keys of the object that the five fields above do not show:
      keys whose value is null (a field read as [None] may still be a key
      of the object) and keys the interface does not list.  Property reads
      ignore them; [Object.keys] does not. *)
  other_keys : list string
}.

Record Take : Type := {
  take_id : Z;                       (* [id] *)
  file_name : string;
  number : Z;
  duration : option Q;
  ai_metadata : option AiMetadata;
  confidence_score : option Q
}.

(** The empty object literal [{}], at each of the three types it is used. *)
Definition empty_metadata : AiMetadata :=
  {| cv := None; audio := None; nlp := None; score_breakdown := None;
     emotion := None; other_keys := [] |}.
Definition empty_audio : Audio :=
  {| transcript := None; quality_score := None; behavioral_markers := None |}.
Definition empty_markers : BehavioralMarkers :=
  {| hesitation_duration := None; laughter_detected := None |}.

(** JavaScript's [v || d]: [d] unless [v] is present and truthy. *)
Definition js_or {A} (truthy : A -> bool) (v : option A) (d : A) : A :=
  match v with
  | Some x => if truthy x then x else d
  | None => d
  end.

Definition truthy_object {A} (_ : A) : bool := true.
Definition truthy_number (q : Q) : bool := negb (Qnum q =? 0)%Z.
Definition truthy_boolean (b : bool) : bool := b.
Definition truthy_string (s : string) : bool :=
  match s with EmptyString => false | String _ _ => true end.

(** [a > b] and [a <= b] on numbers. *)
Definition num_gt (a b : Q) : bool := (Qnum b * QDen a <? Qnum a * QDen b)%Z.
Definition num_le (a b : Q) : bool := Qle_bool a b.

(* ===================================================================== *)
(** ** The categorizer ([categorizedResults] in EmotionPerformance.tsx) *)
(* ===================================================================== *)

(** [CategorizedTakes]: an object used as a map; its keys keep the order
    in which the literal lists them. *)
Definition CategorizedTakes : Type := list (string * list Take).

(** [categories[key].push(take)]; [key] is always one of the five keys of
    the literal, so the first matching entry is the one updated. *)
Fixpoint push (key : string) (take : Take) (categories : CategorizedTakes)
  : CategorizedTakes :=
  match categories with
  | [] => []
  | (k, items) :: rest =>
      if String.eqb k key then (k, items ++ [take]) :: rest
      else (k, items) :: push key take rest
  end.

(** [categories[key]] *)
Fixpoint bucket (key : string) (categories : CategorizedTakes) : option (list Take) :=
  match categories with
  | [] => None
  | (k, items) :: rest => if String.eqb k key then Some items else bucket key rest
  end.

Definition initial_categories : CategorizedTakes :=
  [("Hesitation & Pauses", []);
   ("Laughter & Humor", []);
   ("Emotional Peaks", []);
   ("Analytical & Technical", []);
   ("Standard Dialogue", [])].

Definition pause_of (take : Take) : Q :=
  let meta := js_or truthy_object (ai_metadata take) empty_metadata in
  let audio := js_or truthy_object (audio meta) empty_audio in
  let behaviors := js_or truthy_object (behavioral_markers audio) empty_markers in
  js_or truthy_number (hesitation_duration behaviors) 0%Q.

Definition laughter_of (take : Take) : bool :=
  let meta := js_or truthy_object (ai_metadata take) empty_metadata in
  let audio := js_or truthy_object (audio meta) empty_audio in
  let behaviors := js_or truthy_object (behavioral_markers audio) empty_markers in
  js_or truthy_boolean (laughter_detected behaviors) false.

Definition emotion_of (take : Take) : string :=
  let meta := js_or truthy_object (ai_metadata take) empty_metadata in
  js_or truthy_string (emotion meta) "neutral".

Definition when (c : bool) (f : CategorizedTakes -> CategorizedTakes)
  : CategorizedTakes -> CategorizedTakes :=
  if c then f else fun categories => categories.

(** The body of the [forEach] callback. *)
Definition categorize_take (categories : CategorizedTakes) (take : Take)
  : CategorizedTakes :=
  let pause := pause_of take in
  let laughter := laughter_of take in
  let emotion := emotion_of take in
  let c1 := when (num_gt pause 1%Q) (push "Hesitation & Pauses" take) categories in
  let c2 := when laughter (push "Laughter & Humor" take) c1 in
  let c3 := when (String.eqb emotion "analytical")
              (push "Analytical & Technical" take) c2 in
  let c4 := when (negb (String.eqb emotion "neutral") &&
                  negb (String.eqb emotion "unknown") &&
                  negb (String.eqb emotion "analytical"))
              (push "Emotional Peaks" take) c3 in
  when (negb laughter && num_le pause 1%Q &&
        (String.eqb emotion "neutral" || String.eqb emotion "unknown" ||
         String.eqb emotion "analytical"))
    (when (negb (String.eqb emotion "analytical"))
       (push "Standard Dialogue" take))
    c4.

Definition categorizedResults (takes : list Take) : CategorizedTakes :=
  fold_left categorize_take takes initial_categories.

(** *** The category predicates, as the specification words them *)

(** The fields a take declares, wherever the chain of optional objects
    stops. *)
Definition declared_markers (take : Take) : option BehavioralMarkers :=
  match ai_metadata take with
  | Some meta =>
      match audio meta with
      | Some a => behavioral_markers a
      | None => None
      end
  | None => None
  end.

Definition declared_hesitation (take : Take) : option Q :=
  match declared_markers take with
  | Some b => hesitation_duration b
  | None => None
  end.

Definition declared_laughter (take : Take) : option bool :=
  match declared_markers take with
  | Some b => laughter_detected b
  | None => None
  end.

Definition declared_emotion (take : Take) : option string :=
  match ai_metadata take with
  | Some meta => emotion meta
  | None => None
  end.

(** A reading of a take: its hesitation duration, laughter flag and
    emotion label once defaults are filled in. *)
Record Reading : Type := {
  r_hesitation : Take -> Q;
  r_laughter : Take -> bool;
  r_emotion : Take -> string
}.

(** Defaults for absent fields only: 0, false, "neutral". *)
Definition stated_reading : Reading := {|
  r_hesitation := fun t =>
    match declared_hesitation t with Some q => q | None => 0%Q end;
  r_laughter := fun t =>
    match declared_laughter t with Some b => b | None => false end;
  r_emotion := fun t =>
    match declared_emotion t with Some e => e | None => "neutral" end
|}.

(** The same, with an empty emotion string read as absent. *)
Definition amended_reading : Reading := {|
  r_hesitation := r_hesitation stated_reading;
  r_laughter := r_laughter stated_reading;
  r_emotion := fun t =>
    match declared_emotion t with
    | Some EmptyString | None => "neutral"
    | Some e => e
    end
|}.

Section Predicates.

Variable rd : Reading.

Definition is_hesitation (t : Take) : bool := num_gt (r_hesitation rd t) 1%Q.

Definition is_laughter (t : Take) : bool := r_laughter rd t.

Definition is_analytical (t : Take) : bool :=
  String.eqb (r_emotion rd t) "analytical".

Definition is_emotional_peak (t : Take) : bool :=
  negb (String.eqb (r_emotion rd t) "neutral" ||
        String.eqb (r_emotion rd t) "unknown" ||
        String.eqb (r_emotion rd t) "analytical").

Definition is_standard (t : Take) : bool :=
  negb (r_laughter rd t) && num_le (r_hesitation rd t) 1%Q &&
  (String.eqb (r_emotion rd t) "neutral" || String.eqb (r_emotion rd t) "unknown").

(** Each category holds the takes satisfying its predicate, in input
    order. *)
Definition expected_categories (takes : list Take) : CategorizedTakes :=
  [("Hesitation & Pauses", filter is_hesitation takes);
   ("Laughter & Humor", filter is_laughter takes);
   ("Emotional Peaks", filter is_emotional_peak takes);
   ("Analytical & Technical", filter is_analytical takes);
   ("Standard Dialogue", filter is_standard takes)].

End Predicates.

(* ===================================================================== *)
(** ** The categorizer, restated bucket by bucket *)
(* ===================================================================== *)

(** The reading the code computes with its [||] chains. *)
Definition code_reading : Reading :=
  {| r_hesitation := pause_of; r_laughter := laughter_of; r_emotion := emotion_of |}.

Definition five (l1 l2 l3 l4 l5 : list Take) : CategorizedTakes :=
  [("Hesitation & Pauses", l1);
   ("Laughter & Humor", l2);
   ("Emotional Peaks", l3);
   ("Analytical & Technical", l4);
   ("Standard Dialogue", l5)].

Definition keep (c : bool) (t : Take) : list Take := if c then [t] else [].

(* ===================================================================== *)
(** ** Auto-selection in the AI monitor ([fetchTakes] in AIMonitor.tsx) *)
(* ===================================================================== *)

(** The two pieces of component state [fetchTakes] writes. *)
Record MonitorState : Type := {
  takes : list Take;
  selectedTake : option Take
}.

(** The key of a field that carries a value. *)
Definition present {A} (key : string) (v : option A) : list string :=
  match v with Some _ => [key] | None => [] end.

(** [Object.keys(meta)], up to order: every own key of the object, once.
    These are the keys of the fields that carry a value, the keys that
    carry null and the keys outside the interface. *)
Definition own_keys (meta : AiMetadata) : list string :=
  nodup string_dec
    (present "cv" (cv meta) ++ present "audio" (audio meta) ++
     present "nlp" (nlp meta) ++
     present "score_breakdown" (score_breakdown meta) ++
     present "emotion" (emotion meta) ++ other_keys meta).

(** [Object.keys(meta).length] *)
Definition key_count (meta : AiMetadata) : nat := List.length (own_keys meta).

(** [t.ai_metadata && Object.keys(t.ai_metadata).length > 0] *)
Definition has_metadata (t : Take) : bool :=
  match ai_metadata t with
  | Some meta => (0 <? key_count meta)%nat
  | None => false
  end.

Section AutoSelect.

(** The host's [parseInt]; [None] stands for NaN, which is [===] to no
    take id. *)
Variable parseInt : string -> option Z.

(** [(t) => t.id === parseInt(urlTakeId)] *)
Definition matches_url (urlTakeId : string) (t : Take) : bool :=
  match parseInt urlTakeId with
  | Some n => (take_id t =? n)%Z
  | None => false
  end.

(** [(t) => t.id === selectedTake.id] *)
Definition same_id (selected : Take) (t : Take) : bool :=
  (take_id t =? take_id selected)%Z.

(** The auto-select block, run on a non-empty [response.data]: the new
    value of [selectedTake]. *)
Definition auto_select (urlTakeId : option string)
    (selected : option Take) (data : list Take) : option Take :=
  match selected with
  | None =>
      let fromUrl :=
        match urlTakeId with
        | Some u => if truthy_string u then find (matches_url u) data else None
        | None => None
        end in
      match fromUrl with
      | Some t => Some t
      | None =>
          match find has_metadata data with
          | Some firstWithMeta => Some firstWithMeta
          | None => hd_error data
          end
      end
  | Some current =>
      match find (same_id current) data with
      | Some updated => Some updated
      | None => Some current
      end
  end.

(** What the component state becomes when the promise of one [fetchTakes]
    call settles.  [selectedTake] is the value the effect closed over; the
    effect is re-created whenever [selectedTake?.id] changes, so its id
    and its nullness are those of the current state. *)
Definition fetchTakes (isMounted : bool) (urlTakeId : option string)
    (response : Settled (list Take)) (st : MonitorState) : MonitorState :=
  match response with
  | Fulfilled r =>
      if isMounted then
        {| takes := data r;
           selectedTake :=
             if (0 <? List.length (data r))%nat
             then auto_select urlTakeId (selectedTake st) (data r)
             else selectedTake st |}
      else st
  | Rejected _ => st
  end.

(** The identifier supplied from outside, if any. *)
Definition supplied_id (urlTakeId : option string) : option Z :=
  match urlTakeId with
  | Some u => if truthy_string u then parseInt u else None
  | None => None
  end.

End AutoSelect.

(** [first_such p l t]: [t] is the first element of [l], in order, that
    satisfies [p]. *)
Definition first_such (p : Take -> bool) (l : list Take) (t : Take) : Prop :=
  exists before after,
    l = before ++ t :: after /\ p t = true /\ Forall (fun x => p x = false) before.

Definition none_such (p : Take -> bool) (l : list Take) : Prop :=
  Forall (fun x => p x = false) l.

(** [by_url parseInt urlTakeId t]: take [t] carries the identifier supplied
    from outside. *)
Definition by_url (parseInt : string -> option Z) (urlTakeId : option string)
    (t : Take) : bool :=
  match supplied_id parseInt urlTakeId with
  | Some n => (take_id t =? n)%Z
  | None => false
  end.

(* ===================================================================== *)
(** ** Concrete worlds and backends used to exercise the statements *)
(* ===================================================================== *)

Definition fresh_world : World :=
  {| store := initialState; clock := 0; requests := 0%nat; trace := [] |}.

Definition sample_stats : DashboardStats := {|
  stats_processingProgress := 40%Q;
  stats_aiConfidenceHealth := 90%Q;
  stats_issues := {| focus := 1; audio_issues := 0; continuity := 2; narrative := 0 |};
  pendingReview := 3;
  approvedCount := 4;
  totalTakes := 7;
  stats_totalFootage := "0h 12m 5s"
|}.

Definition sample_project : ProjectDto := {|
  id := 11; name := "Pilot"; dto_description := None;
  created_at := "2024-01-05T10:00:00"
|}.

Definition sample_file : File := {| file_name_of := "take1.mp4"; file_bytes := [] |}.

(** Every endpoint rejects every request. *)
Definition backend_down : Backend := {|
  projects_getCurrent := fun _ => Rejected (ErrorInstance "Network Error");
  projects_getDashboardStats := fun _ => Rejected (ErrorInstance "Network Error");
  timeline_get := fun _ => Rejected (ErrorInstance "Network Error");
  processing_getStatus := fun _ _ => Rejected (ErrorInstance "Network Error");
  media_upload := fun _ _ => Rejected (ErrorInstance "Network Error");
  latency := fun _ => 35
|}.

(** Every endpoint answers; the stats endpoint only from the third
    request on. *)
Definition backend_flaky : Backend := {|
  projects_getCurrent := fun _ => Fulfilled {| data := sample_project |};
  projects_getDashboardStats := fun i =>
    if (i <? 2)%nat then Rejected (ErrorInstance "timeout of 10000ms exceeded")
    else Fulfilled {| data := sample_stats |};
  timeline_get := fun _ => Fulfilled {| data := JArr [] |};
  processing_getStatus := fun _ _ => Fulfilled {| data := JObj [("status", JStr "pending")] |};
  media_upload := fun _ _ => Fulfilled {| data := JObj [("id", JNum 1%Q)] |};
  latency := fun _ => 35
|}.

Definition sample_locale (iso : string) : string := substring 0 10 iso.

(** The store a failed fetchProject leaves behind. *)
Definition world_after_failed_fetchProject : World :=
  snd (fetchProject backend_down sample_locale fresh_world).

Definition take_with_empty_emotion : Take := {|
  take_id := 1; file_name := "take1.mp4"; number := 1; duration := None;
  ai_metadata := Some {| cv := None; audio := None; nlp := None;
                         score_breakdown := None; emotion := Some "";
                         other_keys := [] |};
  confidence_score := None
|}.

Definition take_laughing_happy : Take := {|
  take_id := 2; file_name := "take2.mp4"; number := 2; duration := None;
  ai_metadata :=
    Some {| cv := None;
            audio := Some {| transcript := None; quality_score := None;
                             behavioral_markers :=
                               Some {| hesitation_duration := None;
                                       laughter_detected := Some true |} |};
            nlp := None; score_breakdown := None; emotion := Some "happy";
            other_keys := [] |};
  confidence_score := None
|}.

Definition take_hesitating : Take := {|
  take_id := 3; file_name := "take3.mp4"; number := 3; duration := None;
  ai_metadata :=
    Some {| cv := None;
            audio := Some {| transcript := None; quality_score := None;
                             behavioral_markers :=
                               Some {| hesitation_duration := Some (3 # 2);
                                       laughter_detected := Some false |} |};
            nlp := None; score_breakdown := None; emotion := Some "neutral";
            other_keys := [] |};
  confidence_score := None
|}.

(** The list of the specification's example: A without metadata, then B
    and C with metadata. *)
Definition take_A : Take := {|
  take_id := 1; file_name := "a.mp4"; number := 1; duration := None;
  ai_metadata := None; confidence_score := None |}.

Definition take_B : Take := {|
  take_id := 2; file_name := "b.mp4"; number := 2; duration := None;
  ai_metadata := Some {| cv := None; audio := None; nlp := None;
                         score_breakdown := None; emotion := Some "happy";
                         other_keys := [] |};
  confidence_score := None |}.

Definition take_C : Take := {|
  take_id := 3; file_name := "c.mp4"; number := 3; duration := None;
  ai_metadata := Some {| cv := Some (JObj []); audio := None; nlp := None;
                         score_breakdown := None; emotion := None;
                         other_keys := [] |};
  confidence_score := None |}.

(** A take whose metadata is [{ emotion: null }]: one own key, no value. *)
Definition take_null_emotion : Take := {|
  take_id := 4; file_name := "n.mp4"; number := 4; duration := None;
  ai_metadata := Some {| cv := None; audio := None; nlp := None;
                         score_breakdown := None; emotion := None;
                         other_keys := ["emotion"] |};
  confidence_score := None |}.

(** A take whose metadata only has a key outside the interface. *)
Definition take_unlisted_key : Take := {|
  take_id := 5; file_name := "u.mp4"; number := 5; duration := None;
  ai_metadata := Some {| cv := None; audio := None; nlp := None;
                         score_breakdown := None; emotion := None;
                         other_keys := ["pipeline_version"] |};
  confidence_score := None |}.

(** A take whose metadata is the empty object [{}]. *)
Definition take_empty_metadata : Take := {|
  take_id := 6; file_name := "e.mp4"; number := 6; duration := None;
  ai_metadata := Some empty_metadata; confidence_score := None |}.

(** A decimal reader for the ids used in the examples. *)
Definition sample_parseInt (s : string) : option Z :=
  if String.eqb s "1" then Some 1
  else if String.eqb s "2" then Some 2
  else if String.eqb s "3" then Some 3
  else None.

Definition nothing_selected : MonitorState := {| takes := []; selectedTake := None |}.

(* ===================================================================== *)
(** ** Runs of several actions, and what a run costs *)
(* ===================================================================== *)

(** A caller that awaits each action before starting the next (a failure
    thrown by an upload is caught by the caller, the run goes on). *)
Fixpoint run_all (api : Backend) (toLocaleDateString : string -> string)
    (actions : list Action) (w : World) : World :=
  match actions with
  | [] => w
  | a :: rest =>
      run_all api toLocaleDateString rest (snd (perform api toLocaleDateString a w))
  end.

(** Time spent in the [n] requests numbered [i], [i+1], ... *)
Fixpoint latency_sum (api : Backend) (i n : nat) : Z :=
  match n with
  | O => 0
  | S k => latency api i + latency_sum api (S i) k
  end.

(** The groups of fields each fetch owns. *)
Definition project_fields (s : ProjectState)
  : option Z * string * string * string :=
  (projectId s, projectName s, description s, shootDate s).

Definition stats_fields (s : ProjectState) : option DashboardStats * option Z :=
  (dashboardStats s, lastUpdated s).

(** The fields no action has a [set] for. *)
Definition static_fields (s : ProjectState) : list string * string * Q * Issues :=
  (cameras s, totalFootage s, aiConfidenceHealth s, issues s).

Definition writes_project (a : Action) : bool :=
  match a with FetchProject => true | _ => false end.

Definition writes_timeline (a : Action) : bool :=
  match a with FetchTimeline => true | _ => false end.

Definition writes_stats (a : Action) : bool :=
  match a with FetchDashboardStats _ => true | _ => false end.

Definition writes_progress (a : Action) : bool :=
  match a with SetProcessingProgress _ => true | _ => false end.

(** How many requests an action may issue: none for the synchronous
    setter, one per fetch, up to [retries + 1] for the stats fetch. *)
Definition request_budget (a : Action) : nat :=
  match a with
  | SetProcessingProgress _ => 0%nat
  | FetchDashboardStats retries => S (Z.to_nat retries)
  | _ => 1%nat
  end.

Definition count_requests (l : list Entry) : nat :=
  List.length (filter (fun en => is_request (fst en)) l).

(* ===================================================================== *)
(** ** What the dashboard derives from the store (Dashboard.tsx) *)
(* ===================================================================== *)

(** [loading && !dashboardStats]: the skeleton replaces the stat cards. *)
Definition show_skeleton (s : ProjectState) : bool :=
  loading s && negb (match dashboardStats s with Some _ => true | None => false end).

(* ===================================================================== *)
(** ** The gallery page (EmotionPerformance.tsx) *)
(* ===================================================================== *)

Record GalleryState : Type := {
  gallery_takes : list Take;      (* [takes] *)
  isLoading : bool
}.

(** [useState<Take[]>([])], [useState(true)] *)
Definition gallery_initial : GalleryState :=
  {| gallery_takes := []; isLoading := true |}.

(** The state once the promise of the mount effect's [fetchTakes] settles:
    [setTakes] in the [try], nothing but a console line in the [catch],
    [setIsLoading(false)] in the [finally]. *)
Definition gallery_fetchTakes (response : Settled (list Take)) (st : GalleryState)
  : GalleryState :=
  match response with
  | Fulfilled r => {| gallery_takes := data r; isLoading := false |}
  | Rejected _ => {| gallery_takes := gallery_takes st; isLoading := false |}
  end.

(** The sections rendered: [Object.entries(categorizedResults)], in key
    order, keeping those with [items.length > 0]. *)
Definition visible_sections (takes : list Take) : CategorizedTakes :=
  filter (fun entry => (0 <? List.length (snd entry))%nat) (categorizedResults takes).

(** The number in "[items.length] Clips Found", summed over the sections. *)
Definition clips_found (takes : list Take) : nat :=
  list_sum (map (fun entry => List.length (snd entry)) (visible_sections takes)).

(** What the component returns. *)
Inductive GalleryView : Type :=
| Spinner
| Gallery (sections : CategorizedTakes) (empty_notice : bool).

Definition gallery_render (st : GalleryState) : GalleryView :=
  if isLoading st then Spinner
  else Gallery (visible_sections (gallery_takes st))
         (List.length (gallery_takes st) =? 0)%nat.

(** *** [TakeCard] *)

Inductive Tone : Type := ToneRed | ToneGreen | ToneBlue | TonePurple | TonePlain.

Record CardView : Type := {
  card_emotion : string;            (* the label in the first badge *)
  card_tone : Tone;                 (* its colour classes *)
  card_hesitation_badge : bool;     (* [pause > 1.0 && ...] *)
  card_laughter_badge : bool;       (* [laughter && ...] *)
  card_transcript : option string;  (* [transcript && ...] *)
  card_quality : Q                  (* [audio.quality_score || 0] *)
}.

Definition takeCard (take : Take) : CardView :=
  let meta := js_or truthy_object (ai_metadata take) empty_metadata in
  let audio := js_or truthy_object (audio meta) empty_audio in
  let emotion := js_or truthy_string (emotion meta) "neutral" in
  let transcript := js_or truthy_string (transcript audio) "" in
  let behaviors := js_or truthy_object (behavioral_markers audio) empty_markers in
  let pause := js_or truthy_number (hesitation_duration behaviors) 0%Q in
  let laughter := js_or truthy_boolean (laughter_detected behaviors) false in
  {| card_emotion := emotion;
     card_tone :=
       if String.eqb emotion "tense" then ToneRed
       else if String.eqb emotion "happy" then ToneGreen
       else if String.eqb emotion "sad" then ToneBlue
       else if String.eqb emotion "awkward" then TonePurple
       else TonePlain;
     card_hesitation_badge := num_gt pause 1%Q;
     card_laughter_badge := laughter;
     card_transcript := if truthy_string transcript then Some transcript else None;
     card_quality := js_or truthy_number (quality_score audio) 0%Q |}.

(** The takes filed under [key]. *)
Definition filed_under (key : string) (takes : list Take) : list Take :=
  match bucket key (categorizedResults takes) with
  | Some items => items
  | None => []
  end.

(** In how many categories a take is filed. *)
Definition memberships (t : Take) : nat :=
  (Nat.b2n (is_hesitation code_reading t) + Nat.b2n (is_laughter code_reading t) +
   Nat.b2n (is_emotional_peak code_reading t) + Nat.b2n (is_analytical code_reading t) +
   Nat.b2n (is_standard code_reading t))%nat.

(* ===================================================================== *)
(** ** Status polling and panels of the AI monitor (AIMonitor.tsx) *)
(* ===================================================================== *)

(** Truthiness of a decoded payload. *)
Definition truthy_json (v : Json) : bool :=
  match v with
  | JNull => false
  | JBool b => b
  | JNum q => truthy_number q
  | JStr s => truthy_string s
  | JArr _ | JObj _ => true
  end.

Fixpoint lookup_field (key : string) (fields : list (string * Json)) : option Json :=
  match fields with
  | [] => None
  | (k, v) :: rest => if String.eqb k key then Some v else lookup_field key rest
  end.

(** [v.key] on a payload; a decoded object has each key once.  Anything
    but an object has no such property. *)
Definition json_get (key : string) (v : Json) : option Json :=
  match v with
  | JObj fields => lookup_field key fields
  | _ => None
  end.

Record StatusState : Type := {
  statusData : option Json;
  isPolling : bool
}.

(** One [pollStatus] call for the selected take, from [setIsPolling(true)]
    to the [finally].  [isMounted] is the flag as the continuation finds it
    after the await. *)
Definition pollStatus (api : Backend) (isMounted : bool) (takeId : Z)
    (st : StatusState) (w : World) : StatusState * World :=
  let started := {| statusData := statusData st; isPolling := true |} in
  let (completion, w') := getProcessingStatus api takeId w in
  let tried :=
    match completion with
    | Returned payload =>
        if isMounted && truthy_json payload
        then {| statusData := Some payload; isPolling := isPolling started |}
        else started
    | Threw _ => started
    end in
  ({| statusData := statusData tried;
      isPolling := if isMounted then false else isPolling tried |}, w').

(** [statusData?.status === label] *)
Definition status_is (label : string) (sd : option Json) : bool :=
  match sd with
  | Some v =>
      match json_get "status" v with
      | Some (JStr s) => String.eqb s label
      | _ => false
      end
  | None => false
  end.

Definition isError (sd : option Json) : bool := status_is "error" sd.

(** [isComplete] *)
Definition isComplete (sd : option Json) (selected : option Take) : bool :=
  status_is "completed" sd ||
  match selected with
  | Some t => has_metadata t
  | None => false
  end ||
  match selected with
  | Some t =>
      match confidence_score t with
      | Some c => num_gt c 0%Q
      | None => false
      end
  | None => false
  end.

Inductive Panel : Type := SelectPrompt | ErrorPanel | ProgressPanel | InsightsPanel.

(** What the main content area renders. *)
Definition main_panels (sd : option Json) (selected : option Take) : list Panel :=
  match selected with
  | None => [SelectPrompt]
  | Some t =>
      (if negb (isComplete sd selected)
       then [if isError sd then ErrorPanel else ProgressPanel]
       else []) ++
      (if isComplete sd selected &&
          match ai_metadata t with Some _ => true | None => false end
       then [InsightsPanel]
       else [])
  end.

Definition take_scored_without_metadata : Take := {|
  take_id := 9; file_name := "i.mp4"; number := 9; duration := None;
  ai_metadata := None; confidence_score := Some 55%Q |}.

(* ##################################################################### *)
(** * Part II: properties *)
(* ##################################################################### *)

(* ===================================================================== *)
(** ** Reading a run: algebra of the projections *)
(* ===================================================================== *)

Lemma attempts_app l1 l2 : attempts (l1 ++ l2) = (attempts l1 + attempts l2)%nat.
Proof. unfold attempts. now rewrite filter_app, length_app. Qed.

Lemma delays_app l1 l2 : delays (l1 ++ l2) = delays l1 ++ delays l2.
Proof. unfold delays. now rewrite flat_map_app. Qed.

Lemma io_steps_app l1 l2 : io_steps (l1 ++ l2) = io_steps l1 ++ io_steps l2.
Proof. unfold io_steps. now rewrite map_app, filter_app. Qed.

Lemma emitted_app (w w' : World) (l : list Entry) :
  trace w' = trace w ++ l -> emitted w w' = l.
Proof.
  intros H. unfold emitted. rewrite H.
  rewrite skipn_app, skipn_all, Nat.sub_diag. reflexivity.
Qed.

(* ===================================================================== *)
(** ** One step of the retry loop, in direct style *)
(* ===================================================================== *)

Section RetryLoop.

Variable api : Backend.

Let script := projects_getDashboardStats api.

Lemma stats_attempt_run (w : World) :
  stats_attempt api w =
  match script (requests w) with
  | Fulfilled response => (Returned tt, succeeded_with api (data response) w)
  | Rejected reason => (Threw reason, attempted api w)
  end.
Proof.
  unfold stats_attempt, api_projects_getDashboardStats, bind, set, request,
    new_Date, succeeded_with, attempted, record, script; simpl.
  destruct (projects_getDashboardStats api (requests w)); simpl;
    rewrite <- ?app_assoc; reflexivity.
Qed.

Lemma fetchDashboardStats_step (retries : Z) (w : World) :
  fetchDashboardStats api retries w =
  match script (requests w) with
  | Fulfilled response => (Returned tt, succeeded_with api (data response) w)
  | Rejected reason =>
      if retries >? 0
      then fetchDashboardStats api (retries - 1) (waited api retries w)
      else (Returned tt, gave_up api reason w)
  end.
Proof.
  rewrite fetchDashboardStats_equation_1.
  unfold try_catch. rewrite stats_attempt_run.
  destruct (script (requests w)) as [response|reason]; [reflexivity|].
  destruct (Z_gt_dec retries 0) as [Hpos|Hnpos].
  - replace (retries >? 0) with true by (symmetry; rewrite Z.gtb_ltb; apply Z.ltb_lt; lia).
    unfold bind, console_log, sleep, waited, attempted, record; simpl.
    rewrite <- ?app_assoc. reflexivity.
  - replace (retries >? 0) with false by (symmetry; rewrite Z.gtb_ltb; apply Z.ltb_ge; lia).
    unfold stats_give_up, bind, set, console_error, gave_up, attempted, record; simpl.
    rewrite <- ?app_assoc. reflexivity.
Qed.

End RetryLoop.

(* ===================================================================== *)
(** ** Retry policy of fetchDashboardStats *)
(* ===================================================================== *)

Lemma always_fail_rejected (api : Backend) (i : nat) :
  stats_always_fail api ->
  exists reason, projects_getDashboardStats api i = Rejected reason.
Proof.
  intros Hfail. specialize (Hfail i).
  destruct (projects_getDashboardStats api i) as [r|reason]; [discriminate|].
  now exists reason.
Qed.

(** C1: with [retries = N] and a stats endpoint that always fails, the
    action returns after exactly N+1 fetch attempts, separated by N delays
    of 2000 each; the store shows loading and no error at every step before
    the last [set], which writes the fixed message and loading = false. *)
Theorem fetchDashboardStats_exhausts_retries (api : Backend) (N : nat) (w : World) :
  stats_always_fail api ->
  exists (body : list Entry) (err : Thrown) (w' : World),
    fetchDashboardStats api (Z.of_nat N) w = (Returned tt, w') /\
    trace w' = trace w ++ body ++
                 [(EvSet, store w');
                  (EvConsoleError "Dashboard stats error:" err, store w')] /\
    attempts body = S N /\
    requests w' = (requests w + S N)%nat /\
    delays body = repeat 2000 N /\
    io_steps body = EvRequest ProjectsGetDashboardStats :: retry_rounds N /\
    Forall in_flight body /\
    error (store w') =
      Some "Failed to fetch dashboard statistics. Please refresh the page." /\
    loading (store w') = false /\
    domain (store w') = domain (store w).
Proof.
  intros Hfail. revert w.
  induction N as [|n IH]; intros w;
    destruct (always_fail_rejected (requests w) Hfail) as [reason Hrej].
  - exists [(EvSet, patch_start (store w));
            (EvRequest ProjectsGetDashboardStats, patch_start (store w))],
           reason, (gave_up api reason w).
    rewrite fetchDashboardStats_step, Hrej. simpl.
    repeat split; try reflexivity.
    + rewrite <- app_assoc. reflexivity.
    + lia.
    + repeat constructor.
  - destruct (IH (waited api (Z.of_nat (S n)) w))
      as (body & err & w' & Hrun & Htrace & Hatt & Hreq & Hdel & Hio & Hfl & Herr & Hload & Hdom).
    exists ([(EvSet, patch_start (store w));
             (EvRequest ProjectsGetDashboardStats, patch_start (store w));
             (EvConsoleLog (retry_line (Z.of_nat (S n))), patch_start (store w));
             (EvTimeout 2000, patch_start (store w))] ++ body), err, w'.
    rewrite fetchDashboardStats_step, Hrej.
    replace (Z.of_nat (S n) >? 0) with true
      by (symmetry; rewrite Z.gtb_ltb; apply Z.ltb_lt; lia).
    replace (Z.of_nat (S n) - 1) with (Z.of_nat n) by lia.
    repeat split; try assumption.
    + rewrite Htrace. simpl. rewrite <- !app_assoc. reflexivity.
    + rewrite attempts_app, Hatt. reflexivity.
    + rewrite Hreq. simpl. lia.
    + rewrite delays_app, Hdel. reflexivity.
    + rewrite io_steps_app, Hio. reflexivity.
    + apply Forall_app. split; [repeat constructor | exact Hfl].
Qed.

Lemma fetchDashboardStats_exhausts_retries_witness :
  stats_always_fail backend_down /\
  exists (body : list Entry) (err : Thrown) (w' : World),
    fetchDashboardStats backend_down (Z.of_nat 2) fresh_world = (Returned tt, w') /\
    trace w' = trace fresh_world ++ body ++
                 [(EvSet, store w');
                  (EvConsoleError "Dashboard stats error:" err, store w')] /\
    attempts body = 3%nat /\
    requests w' = (requests fresh_world + 3)%nat /\
    delays body = repeat 2000 2 /\
    io_steps body = EvRequest ProjectsGetDashboardStats :: retry_rounds 2 /\
    Forall in_flight body /\
    error (store w') =
      Some "Failed to fetch dashboard statistics. Please refresh the page." /\
    loading (store w') = false /\
    domain (store w') = domain (store fresh_world).
Proof.
  split.
  - intro i. reflexivity.
  - apply (@fetchDashboardStats_exhausts_retries backend_down 2 fresh_world).
    intro i. reflexivity.
Defined.

(** C2: with [retries = 3] and a stats endpoint that rejects the first two
    requests and answers the third, the action returns after exactly three
    attempts with the snapshot stored, [lastUpdated] equal to the time of
    the store update, loading = false and error = null. *)
Theorem fetchDashboardStats_third_attempt_succeeds
    (api : Backend) (w : World) (stats : DashboardStats) :
  is_fulfilled (projects_getDashboardStats api (requests w)) = false ->
  is_fulfilled (projects_getDashboardStats api (S (requests w))) = false ->
  projects_getDashboardStats api (S (S (requests w))) = Fulfilled {| data := stats |} ->
  exists (added : list Entry) (w' : World),
    fetchDashboardStats api 3 w = (Returned tt, w') /\
    trace w' = trace w ++ added /\
    attempts added = 3%nat /\
    requests w' = (requests w + 3)%nat /\
    delays added = [2000; 2000] /\
    dashboardStats (store w') = Some stats /\
    lastUpdated (store w') = Some (clock w') /\
    loading (store w') = false /\
    error (store w') = None.
Proof.
  intros H1 H2 H3.
  destruct (projects_getDashboardStats api (requests w)) as [|r1] eqn:E1;
    [discriminate|].
  destruct (projects_getDashboardStats api (S (requests w))) as [|r2] eqn:E2;
    [discriminate|].
  eexists. eexists.
  rewrite fetchDashboardStats_step, E1. simpl.
  rewrite fetchDashboardStats_step. simpl. rewrite E2. simpl.
  rewrite fetchDashboardStats_step. simpl. rewrite H3. simpl.
  split; [reflexivity|]. simpl.
  split; [rewrite <- !app_assoc; simpl; reflexivity|].
  repeat split; try reflexivity. lia.
Qed.

Lemma fetchDashboardStats_third_attempt_succeeds_witness :
  exists (added : list Entry) (w' : World),
    fetchDashboardStats backend_flaky 3 fresh_world = (Returned tt, w') /\
    trace w' = trace fresh_world ++ added /\
    attempts added = 3%nat /\
    requests w' = (requests fresh_world + 3)%nat /\
    delays added = [2000; 2000] /\
    dashboardStats (store w') = Some sample_stats /\
    lastUpdated (store w') = Some (clock w') /\
    loading (store w') = false /\
    error (store w') = None.
Proof.
  apply (@fetchDashboardStats_third_attempt_succeeds backend_flaky fresh_world sample_stats);
    reflexivity.
Defined.

(* ===================================================================== *)
(** ** Every reporting action settles *)
(* ===================================================================== *)

Section Settling.

Variable api : Backend.
Variable toLocaleDateString : string -> string.

Ltac run_action :=
  unfold fetchProject, fetchTimeline, getProcessingStatus, uploadMedia,
    setProcessingProgress, api_projects_getCurrent, api_timeline_get,
    api_processing_getStatus, api_media_upload,
    bind, try_catch, ret, throw, set, request, console_error, record;
  simpl.

Ltac settle_with s e :=
  exists [(EvSet, patch_start (store s)); (EvRequest e, patch_start (store s))],
         [];
  eexists; simpl; rewrite <- ?app_assoc; simpl;
  repeat split; try reflexivity; repeat constructor.

Lemma fetchProject_settles (w : World) :
  exists w', fetchProject api toLocaleDateString w = (Returned tt, w') /\
             settles (resolves api FetchProject w) w w'.
Proof.
  unfold resolves, settles. run_action.
  destruct (projects_getCurrent api (requests w)) as [r|reason];
    eexists; (split; [reflexivity|]); settle_with w ProjectsGetCurrent.
  eexists; reflexivity.
Qed.

Lemma fetchTimeline_settles (w : World) :
  exists w', fetchTimeline api w = (Returned tt, w') /\
             settles (resolves api FetchTimeline w) w w'.
Proof.
  unfold resolves, settles. run_action.
  destruct (timeline_get api (requests w)) as [r|reason];
    eexists; (split; [reflexivity|]); settle_with w TimelineGet.
  eexists; reflexivity.
Qed.

Lemma uploadMedia_settles (file : File) (w : World) :
  exists c w', uploadMedia api file w = (c, w') /\
               settles (resolves api (UploadMedia file) w) w w'.
Proof.
  unfold resolves, settles. run_action.
  destruct (media_upload api file (requests w)) as [r|reason];
    eexists; eexists; (split; [reflexivity|]); settle_with w (MediaUpload file).
  eexists; reflexivity.
Qed.

Lemma fetchDashboardStats_settles (n : nat) :
  forall (retries : Z) (w : World),
    Z.to_nat retries = n ->
    exists w', fetchDashboardStats api retries w = (Returned tt, w') /\
               settles (resolves api (FetchDashboardStats retries) w) w w'.
Proof.
  induction n as [|k IH]; intros retries w Hn;
    rewrite fetchDashboardStats_step; unfold resolves; rewrite Hn; simpl;
    destruct (projects_getDashboardStats api (requests w)) as [r|reason] eqn:E;
    simpl.
  - eexists; split; [reflexivity|]. unfold settles. settle_with w ProjectsGetDashboardStats.
  - replace (retries >? 0) with false
      by (symmetry; rewrite Z.gtb_ltb; apply Z.ltb_ge; lia).
    eexists; split; [reflexivity|]. unfold settles.
    exists [(EvSet, patch_start (store w));
            (EvRequest ProjectsGetDashboardStats, patch_start (store w))],
           [(EvConsoleError "Dashboard stats error:" reason,
             patch_failed exhausted_message (patch_start (store w)))].
    eexists; simpl; rewrite <- ?app_assoc; simpl.
    repeat split; try reflexivity; repeat constructor.
    eexists; reflexivity.
  - eexists; split; [reflexivity|]. unfold settles. settle_with w ProjectsGetDashboardStats.
  - replace (retries >? 0) with true
      by (symmetry; rewrite Z.gtb_ltb; apply Z.ltb_lt; lia).
    destruct (IH (retries - 1) (waited api retries w) ltac:(lia))
      as (w' & Hrun & body & tail & s & Htr & _ & Hfl & Htail & Hst & Hld & Hok).
    exists w'. split; [exact Hrun|].
    unfold resolves in Hok. replace (Z.to_nat (retries - 1)) with k in Hok by lia.
    simpl in Hok.
    exists ([(EvSet, patch_start (store w));
             (EvRequest ProjectsGetDashboardStats, patch_start (store w));
             (EvConsoleLog (retry_line retries), patch_start (store w));
             (EvTimeout 2000, patch_start (store w))] ++ body), tail, s.
    repeat split; try assumption.
    + rewrite Htr. simpl. rewrite <- !app_assoc. reflexivity.
    + apply Forall_app. split; [repeat constructor | exact Hfl].
Qed.

End Settling.

(* ===================================================================== *)
(** ** Resolution of the store actions *)
(* ===================================================================== *)

Section Resolution.

Variable api : Backend.
Variable toLocaleDateString : string -> string.

(** The world an action leaves is the one its body leaves. *)
Lemma perform_world (a : Action) (w : World) :
  snd (perform api toLocaleDateString a w) =
  match a with
  | FetchProject => snd (fetchProject api toLocaleDateString w)
  | FetchTimeline => snd (fetchTimeline api w)
  | GetProcessingStatus takeId => snd (getProcessingStatus api takeId w)
  | SetProcessingProgress progress => snd (setProcessingProgress progress w)
  | UploadMedia file => snd (uploadMedia api file w)
  | FetchDashboardStats retries => snd (fetchDashboardStats api retries w)
  end.
Proof.
  destruct a; unfold perform, bind, ret;
    match goal with
    | |- context [match ?m w with _ => _ end] =>
        destruct (m w) as [[v|err] w1]; reflexivity
    end.
Qed.

Lemma perform_settles (a : Action) (w : World) :
  global_fetch a = true ->
  settles (resolves api a w) w (snd (perform api toLocaleDateString a w)).
Proof.
  intros Hg. rewrite perform_world.
  destruct a as [| |takeId|progress|file|retries]; try discriminate.
  - destruct (fetchProject_settles api toLocaleDateString w) as (w' & -> & H).
    exact H.
  - destruct (fetchTimeline_settles api w) as (w' & -> & H). exact H.
  - destruct (uploadMedia_settles api file w) as (c & w' & -> & H). exact H.
  - destruct (@fetchDashboardStats_settles api _ retries w eq_refl)
      as (w' & -> & H).
    exact H.
Qed.

(** The status query writes nothing to the store. *)
Lemma getProcessingStatus_run (takeId : Z) (w : World) :
  getProcessingStatus api takeId w =
  match processing_getStatus api takeId (requests w) with
  | Fulfilled response =>
      (Returned (data response),
       {| store := store w; clock := clock w + latency api (requests w);
          requests := S (requests w);
          trace := trace w ++ [(EvRequest (ProcessingGetStatus takeId), store w)] |})
  | Rejected reason =>
      (Returned JNull,
       {| store := store w; clock := clock w + latency api (requests w);
          requests := S (requests w);
          trace := trace w ++
                     [(EvRequest (ProcessingGetStatus takeId), store w);
                      (EvConsoleError "Failed to fetch processing status" reason,
                       store w)] |})
  end.
Proof.
  unfold getProcessingStatus, api_processing_getStatus, try_catch, bind,
    request, console_error, ret, record; simpl.
  destruct (processing_getStatus api takeId (requests w)); simpl;
    rewrite <- ?app_assoc; reflexivity.
Qed.

Lemma failed_keeps_domain (msg : string) (s : ProjectState) :
  domain (patch_failed msg s) = domain s.
Proof. reflexivity. Qed.

Lemma settles_failed_store (w w' : World) :
  settles false w w' ->
  exists msg, store w' = patch_failed msg (store w).
Proof.
  intros (body & tail & s & _ & _ & _ & _ & Hst & _ & msg & Hs).
  exists msg. congruence.
Qed.

Lemma settles_flags (ok : bool) (w w' : World) :
  settles ok w w' ->
  loading (store w') = false /\
  (ok = true -> error (store w') = None) /\
  (ok = false -> error (store w') <> None).
Proof.
  intros (body & tail & s & _ & _ & _ & _ & Hst & Hld & Hok).
  rewrite Hst. split; [exact Hld|]. split; intros ->.
  - exact Hok.
  - destruct Hok as (msg & ->). discriminate.
Qed.

End Resolution.

(** C5: a fetch action that reports through the store (fetchProject,
    fetchTimeline, uploadMedia, fetchDashboardStats), once run to its end,
    leaves loading = false; error = null if it succeeded and error non-null
    if it failed terminally.  getProcessingStatus leaves the global error
    as it found it, whatever the outcome. *)
Theorem fetch_actions_resolve_flags
    (api : Backend) (toLocaleDateString : string -> string) (w : World) :
  (forall a : Action,
      global_fetch a = true ->
      let w' := snd (perform api toLocaleDateString a w) in
      loading (store w') = false /\
      (resolves api a w = true -> error (store w') = None) /\
      (resolves api a w = false -> error (store w') <> None)) /\
  (forall takeId : Z,
      let w' := snd (perform api toLocaleDateString (GetProcessingStatus takeId) w) in
      error (store w') = error (store w)).
Proof.
  split.
  - intros a Hg w'. apply settles_flags with (w := w).
    apply perform_settles. exact Hg.
  - intros takeId w'. subst w'. rewrite perform_world, getProcessingStatus_run.
    destruct (processing_getStatus api takeId (requests w)); reflexivity.
Qed.

Lemma fetch_actions_resolve_flags_witness :
  (loading (store (snd (perform backend_down sample_locale FetchProject fresh_world)))
     = false /\
   error (store (snd (perform backend_down sample_locale FetchProject fresh_world)))
     <> None) /\
  (loading (store (snd (perform backend_flaky sample_locale (UploadMedia sample_file)
                          fresh_world))) = false /\
   error (store (snd (perform backend_flaky sample_locale (UploadMedia sample_file)
                        fresh_world))) = None).
Proof.
  split.
  - destruct (fetch_actions_resolve_flags backend_down sample_locale fresh_world)
      as [H _].
    destruct (H FetchProject eq_refl) as (Hl & _ & Hf).
    split; [exact Hl | apply Hf; reflexivity].
  - destruct (fetch_actions_resolve_flags backend_flaky sample_locale fresh_world)
      as [H _].
    destruct (H (UploadMedia sample_file) eq_refl) as (Hl & Hs & _).
    split; [exact Hl | apply Hs; reflexivity].
Defined.

(** C6: a failed fetchProject changes nothing but [error] and [loading]:
    projectId, projectName, description, shootDate and every other cached
    field keep their values.  More generally, a failing action leaves the
    store either as it was, or as it was with [error] set and [loading]
    false; no entity field is replaced. *)
Theorem failure_preserves_cached_fields
    (api : Backend) (toLocaleDateString : string -> string) (w : World) :
  (is_fulfilled (projects_getCurrent api (requests w)) = false ->
   let s' := store (snd (fetchProject api toLocaleDateString w)) in
   projectId s' = projectId (store w) /\
   projectName s' = projectName (store w) /\
   description s' = description (store w) /\
   shootDate s' = shootDate (store w) /\
   domain s' = domain (store w)) /\
  (forall a : Action,
      resolves api a w = false ->
      let s' := store (snd (perform api toLocaleDateString a w)) in
      (s' = store w \/ exists msg, s' = patch_failed msg (store w)) /\
      domain s' = domain (store w)).
Proof.
  assert (Hgen : forall a : Action,
             resolves api a w = false ->
             let s' := store (snd (perform api toLocaleDateString a w)) in
             (s' = store w \/ exists msg, s' = patch_failed msg (store w)) /\
             domain s' = domain (store w)).
  { intros a Hfail s'. subst s'.
    destruct (global_fetch a) eqn:Hg.
    - pose proof (perform_settles api toLocaleDateString a w Hg) as Hs.
      rewrite Hfail in Hs. apply settles_failed_store in Hs.
      destruct Hs as (msg & Hs). rewrite Hs. split.
      + right. now exists msg.
      + apply failed_keeps_domain.
    - destruct a as [| |takeId|progress|file|retries]; try discriminate.
      rewrite perform_world, getProcessingStatus_run. simpl in Hfail.
      destruct (processing_getStatus api takeId (requests w)); [discriminate|].
      simpl. split; [now left | reflexivity]. }
  split; [|exact Hgen].
  intros Hfail s'. subst s'.
  destruct (Hgen FetchProject Hfail) as [_ Hdom].
  rewrite perform_world in Hdom.
  set (s' := store (snd (fetchProject api toLocaleDateString w))) in *.
  repeat split; try exact Hdom.
  - exact (f_equal d_projectId Hdom).
  - exact (f_equal d_projectName Hdom).
  - exact (f_equal d_description Hdom).
  - exact (f_equal d_shootDate Hdom).
Qed.

Lemma failure_preserves_cached_fields_witness :
  let s' := store (snd (fetchProject backend_down sample_locale fresh_world)) in
  projectId s' = projectId (store fresh_world) /\
  projectName s' = projectName (store fresh_world) /\
  description s' = description (store fresh_world) /\
  shootDate s' = shootDate (store fresh_world) /\
  domain s' = domain (store fresh_world).
Proof.
  destruct (failure_preserves_cached_fields backend_down sample_locale fresh_world)
    as [H _].
  apply H. reflexivity.
Defined.

(** C7: uploadMedia first sets loading = true and error = null, then issues
    the upload.  If the upload is fulfilled it returns the response data
    and loading is false.  If it is rejected, error is the failure's message
    (or the generic fallback), loading is false, and the same failure is
    thrown to the caller.  No other store action ever throws. *)
Theorem uploadMedia_contract
    (api : Backend) (toLocaleDateString : string -> string)
    (file : File) (w : World) :
  let c := fst (uploadMedia api file w) in
  let w' := snd (uploadMedia api file w) in
  (exists s rest,
      trace w' = trace w ++ (EvSet, s) :: (EvRequest (MediaUpload file), s) :: rest /\
      loading s = true /\ error s = None) /\
  (forall response,
      media_upload api file (requests w) = Fulfilled response ->
      c = Returned (data response) /\ loading (store w') = false) /\
  (forall reason,
      media_upload api file (requests w) = Rejected reason ->
      c = Threw reason /\
      error (store w') = Some (error_text reason) /\
      loading (store w') = false) /\
  (forall (a : Action) (w0 : World) (err : Thrown),
      fst (perform api toLocaleDateString a w0) = Threw err ->
      exists f, a = UploadMedia f).
Proof.
  intros c w'. subst c w'.
  unfold uploadMedia, api_media_upload, bind, try_catch, ret, throw, set,
    request, record; simpl.
  split; [|split; [|split]].
  - destruct (media_upload api file (requests w)); simpl;
      eexists; eexists; rewrite <- ?app_assoc; simpl;
      (split; [reflexivity | split; reflexivity]).
  - intros response ->. simpl. split; reflexivity.
  - intros reason ->. simpl. repeat split; reflexivity.
  - intros a w0 err Hthrow.
    destruct a as [| |takeId|progress|f|retries]; unfold perform, bind in Hthrow.
    + destruct (fetchProject_settles api toLocaleDateString w0) as (w1 & Hrun & _).
      rewrite Hrun in Hthrow. discriminate.
    + destruct (fetchTimeline_settles api w0) as (w1 & Hrun & _).
      rewrite Hrun in Hthrow. discriminate.
    + rewrite getProcessingStatus_run in Hthrow.
      destruct (processing_getStatus api takeId (requests w0)); discriminate.
    + discriminate.
    + now exists f.
    + destruct (@fetchDashboardStats_settles api _ retries w0 eq_refl)
        as (w1 & Hrun & _).
      rewrite Hrun in Hthrow. discriminate.
Qed.

Lemma uploadMedia_contract_witness :
  fst (uploadMedia backend_down sample_file fresh_world)
    = Threw (ErrorInstance "Network Error") /\
  error (store (snd (uploadMedia backend_down sample_file fresh_world)))
    = Some "Network Error" /\
  loading (store (snd (uploadMedia backend_down sample_file fresh_world))) = false.
Proof.
  destruct (uploadMedia_contract backend_down sample_locale sample_file fresh_world)
    as (_ & _ & H & _).
  apply H. reflexivity.
Defined.

(** C8: for every take id, getProcessingStatus returns the payload when the
    request is fulfilled and null when it is rejected; in the rejected case
    the store, and so its loading and error fields, is exactly as before,
    and no [set] was called. *)
Theorem getProcessingStatus_contract (api : Backend) (takeId : Z) (w : World) :
  let c := fst (getProcessingStatus api takeId w) in
  let w' := snd (getProcessingStatus api takeId w) in
  (forall response,
      processing_getStatus api takeId (requests w) = Fulfilled response ->
      c = Returned (data response)) /\
  (forall reason,
      processing_getStatus api takeId (requests w) = Rejected reason ->
      c = Returned JNull /\
      loading (store w') = loading (store w) /\
      error (store w') = error (store w) /\
      store w' = store w /\
      Forall (fun en => is_set (fst en) = false) (emitted w w')).
Proof.
  intros c w'. subst c w'. rewrite getProcessingStatus_run.
  split.
  - intros response ->. reflexivity.
  - intros reason ->. simpl. repeat split.
    erewrite emitted_app by reflexivity.
    repeat constructor.
Qed.

Lemma getProcessingStatus_contract_witness :
  fst (getProcessingStatus backend_down 7 fresh_world) = Returned JNull /\
  loading (store (snd (getProcessingStatus backend_down 7 fresh_world)))
    = loading (store fresh_world) /\
  error (store (snd (getProcessingStatus backend_down 7 fresh_world)))
    = error (store fresh_world) /\
  store (snd (getProcessingStatus backend_down 7 fresh_world)) = store fresh_world /\
  Forall (fun en => is_set (fst en) = false)
    (emitted fresh_world (snd (getProcessingStatus backend_down 7 fresh_world))).
Proof.
  destruct (getProcessingStatus_contract backend_down 7 fresh_world) as [_ H].
  apply (H (ErrorInstance "Network Error")). reflexivity.
Defined.

(* ===================================================================== *)
(** ** The sync-state invariant: where it holds *)
(* ===================================================================== *)

(** C9, as stated, fails: once a fetchProject has failed, the status query
    for take 7 issues its request while [error] still holds the failure
    message; getProcessingStatus never clears it. *)
Lemma getProcessingStatus_breaks_sync_state_invariant :
  ~ sync_state_invariant backend_flaky sample_locale (GetProcessingStatus 7)
      world_after_failed_fetchProject.
Proof.
  intros (_ & Hclear & _).
  specialize (Hclear (ProcessingGetStatus 7)
                (store world_after_failed_fetchProject)).
  assert (Hin : In (EvRequest (ProcessingGetStatus 7),
                    store world_after_failed_fetchProject)
                  (emitted world_after_failed_fetchProject
                     (snd (perform backend_flaky sample_locale
                             (GetProcessingStatus 7)
                             world_after_failed_fetchProject)))).
  { vm_compute. left. reflexivity. }
  apply Hclear in Hin. vm_compute in Hin. discriminate.
Qed.

(** C9, amended: for the actions that report through the store
    (fetchProject, fetchTimeline, uploadMedia, fetchDashboardStats) the
    invariant holds on every run, in the strong form [settles]: the run
    opens with the [set] that raises loading and clears error, the store
    stays in flight until one resolving [set], and that [set] lowers
    loading and writes an error exactly when the fetch failed terminally.
    The two remaining actions write neither field. *)
Theorem global_fetch_sync_state_invariant
    (api : Backend) (toLocaleDateString : string -> string)
    (a : Action) (w : World) :
  let w' := snd (perform api toLocaleDateString a w) in
  if global_fetch a
  then sync_state_invariant api toLocaleDateString a w /\
       settles (resolves api a w) w w'
  else loading (store w') = loading (store w) /\
       error (store w') = error (store w).
Proof.
  intros w'. subst w'.
  destruct (global_fetch a) eqn:Hg.
  - pose proof (perform_settles api toLocaleDateString a w Hg) as Hs.
    split; [|exact Hs].
    destruct (settles_flags Hs) as (Hld & Hok & Hfail).
    destruct Hs as (body & tail & s & Htr & _ & Hfl & Htail & _).
    split; [intros _; exact Hld|]. split.
    + intros e s0 Hin.
      rewrite (emitted_app _ _ _ Htr) in Hin.
      apply in_app_or in Hin. destruct Hin as [Hin|[Heq|Hin]].
      * rewrite Forall_forall in Hfl. apply (Hfl _ Hin).
      * discriminate.
      * rewrite Forall_forall in Htail. destruct (Htail _ Hin) as [_ Hreq].
        discriminate.
    + intros Herr. destruct (resolves api a w); [|reflexivity].
      elim Herr. now apply Hok.
  - destruct a as [| |takeId|progress|file|retries]; try discriminate;
      rewrite perform_world.
    + rewrite getProcessingStatus_run.
      destruct (processing_getStatus api takeId (requests w)); split; reflexivity.
    + split; reflexivity.
Qed.

(* ===================================================================== *)
(** ** Correctness of the categorizer *)
(* ===================================================================== *)

Lemma categorize_take_five (l1 l2 l3 l4 l5 : list Take) (t : Take) :
  categorize_take (five l1 l2 l3 l4 l5) t =
  five (l1 ++ keep (is_hesitation code_reading t) t)
       (l2 ++ keep (is_laughter code_reading t) t)
       (l3 ++ keep (is_emotional_peak code_reading t) t)
       (l4 ++ keep (is_analytical code_reading t) t)
       (l5 ++ keep (is_standard code_reading t) t).
Proof.
  unfold categorize_take, is_hesitation, is_laughter, is_emotional_peak,
    is_analytical, is_standard, code_reading, five, keep, when; cbn [r_hesitation r_laughter r_emotion].
  generalize (emotion_of t) as e. intros e.
  destruct (num_gt (pause_of t) 1); destruct (laughter_of t);
    destruct (num_le (pause_of t) 1);
    (destruct (String.eqb_spec e "neutral") as [->|Hn];
     [|destruct (String.eqb_spec e "unknown") as [->|Hu];
       [|destruct (String.eqb_spec e "analytical") as [->|Ha]]]);
    cbn; rewrite ?app_nil_r; reflexivity.
Qed.

Lemma filter_snoc (p : Take -> bool) (l : list Take) (t : Take) (rest : list Take) :
  (l ++ keep (p t) t) ++ filter p rest = l ++ filter p (t :: rest).
Proof.
  unfold keep. simpl. destruct (p t); simpl.
  - rewrite <- app_assoc. reflexivity.
  - rewrite app_nil_r. reflexivity.
Qed.

Lemma fold_categorize_five (takes : list Take) :
  forall l1 l2 l3 l4 l5,
    fold_left categorize_take takes (five l1 l2 l3 l4 l5) =
    five (l1 ++ filter (is_hesitation code_reading) takes)
         (l2 ++ filter (is_laughter code_reading) takes)
         (l3 ++ filter (is_emotional_peak code_reading) takes)
         (l4 ++ filter (is_analytical code_reading) takes)
         (l5 ++ filter (is_standard code_reading) takes).
Proof.
  induction takes as [|t rest IH]; intros l1 l2 l3 l4 l5.
  - simpl. rewrite !app_nil_r. reflexivity.
  - cbn [fold_left]. rewrite categorize_take_five, IH, !filter_snoc. reflexivity.
Qed.

Lemma categorizedResults_code_reading (takes : list Take) :
  categorizedResults takes = expected_categories code_reading takes.
Proof.
  unfold categorizedResults.
  change initial_categories with (five [] [] [] [] []).
  rewrite fold_categorize_five. reflexivity.
Qed.

(** A number that [||] replaces by 0 compares with 1 as 0 does. *)
Lemma falsy_number_gt (q : Q) :
  truthy_number q = false -> num_gt q 1 = num_gt 0 1.
Proof.
  unfold truthy_number, num_gt. intros H.
  apply negb_false_iff, Z.eqb_eq in H.
  simpl. apply Z.ltb_ge. pose proof (Pos2Z.is_pos (Qden q)). lia.
Qed.

Lemma falsy_number_le (q : Q) :
  truthy_number q = false -> num_le q 1 = num_le 0 1.
Proof.
  unfold truthy_number, num_le, Qle_bool. intros H.
  apply negb_false_iff, Z.eqb_eq in H.
  simpl. apply Z.leb_le. pose proof (Pos2Z.is_pos (Qden q)). lia.
Qed.

Lemma pause_of_declared (t : Take) :
  pause_of t = js_or truthy_number (declared_hesitation t) 0%Q.
Proof.
  unfold pause_of, declared_hesitation, declared_markers, js_or, truthy_object.
  destruct (ai_metadata t) as [m|]; [|reflexivity].
  destruct (audio m) as [a|]; [|reflexivity].
  destruct (behavioral_markers a) as [b|]; reflexivity.
Qed.

Lemma laughter_of_declared (t : Take) :
  laughter_of t = r_laughter amended_reading t.
Proof.
  unfold laughter_of, amended_reading, stated_reading, declared_laughter,
    declared_markers, js_or, truthy_object, truthy_boolean; simpl.
  destruct (ai_metadata t) as [m|]; [|reflexivity].
  destruct (audio m) as [a|]; [|reflexivity].
  destruct (behavioral_markers a) as [b|]; [|reflexivity].
  destruct (laughter_detected b) as [[|]|]; reflexivity.
Qed.

Lemma emotion_of_declared (t : Take) :
  emotion_of t = r_emotion amended_reading t.
Proof.
  unfold emotion_of, amended_reading, declared_emotion, js_or, truthy_object,
    truthy_string; simpl.
  destruct (ai_metadata t) as [m|]; [|reflexivity].
  destruct (emotion m) as [[|c s]|]; reflexivity.
Qed.

Lemma pause_gt_declared (t : Take) :
  num_gt (pause_of t) 1 = num_gt (r_hesitation amended_reading t) 1.
Proof.
  rewrite pause_of_declared. unfold amended_reading, stated_reading, js_or; simpl.
  destruct (declared_hesitation t) as [q|]; [|reflexivity].
  destruct (truthy_number q) eqn:E; [reflexivity|].
  symmetry. now apply falsy_number_gt.
Qed.

Lemma pause_le_declared (t : Take) :
  num_le (pause_of t) 1 = num_le (r_hesitation amended_reading t) 1.
Proof.
  rewrite pause_of_declared. unfold amended_reading, stated_reading, js_or; simpl.
  destruct (declared_hesitation t) as [q|]; [|reflexivity].
  destruct (truthy_number q) eqn:E; [reflexivity|].
  symmetry. now apply falsy_number_le.
Qed.

(** One of [pause > 1.0] and [pause <= 1.0] holds. *)
Lemma num_gt_or_le (q : Q) : num_gt q 1 = false -> num_le q 1 = true.
Proof.
  unfold num_gt, num_le, Qle_bool. simpl. intros H.
  apply Z.ltb_ge in H. apply Z.leb_le. lia.
Qed.

(** The code's reading and the amended reading give the same verdicts. *)
Lemma is_hesitation_readings (t : Take) :
  is_hesitation code_reading t = is_hesitation amended_reading t.
Proof. apply pause_gt_declared. Qed.

Lemma is_laughter_readings (t : Take) :
  is_laughter code_reading t = is_laughter amended_reading t.
Proof. apply laughter_of_declared. Qed.

Lemma is_analytical_readings (t : Take) :
  is_analytical code_reading t = is_analytical amended_reading t.
Proof.
  unfold is_analytical. change (r_emotion code_reading t) with (emotion_of t).
  now rewrite emotion_of_declared.
Qed.

Lemma is_emotional_peak_readings (t : Take) :
  is_emotional_peak code_reading t = is_emotional_peak amended_reading t.
Proof.
  unfold is_emotional_peak. change (r_emotion code_reading t) with (emotion_of t).
  now rewrite emotion_of_declared.
Qed.

Lemma is_standard_readings (t : Take) :
  is_standard code_reading t = is_standard amended_reading t.
Proof.
  unfold is_standard.
  change (r_emotion code_reading t) with (emotion_of t).
  change (r_laughter code_reading t) with (laughter_of t).
  change (r_hesitation code_reading t) with (pause_of t).
  now rewrite emotion_of_declared, laughter_of_declared, pause_le_declared.
Qed.

(** C3, as stated, fails: a take whose emotion is the empty string is
    present-but-falsy, so [meta.emotion || 'neutral'] reads it as neutral
    and files it under Standard Dialogue, whereas the stated predicates
    (defaults for absent fields only) put it under Emotional Peaks. *)
Lemma categorizer_empty_emotion_counterexample :
  categorizedResults [take_with_empty_emotion] <>
  expected_categories stated_reading [take_with_empty_emotion].
Proof. vm_compute. discriminate. Qed.

(** C3, amended: with hesitation_duration = 0, laughter_detected = false
    and emotion = "neutral" for absent fields, and an empty emotion string
    read as neutral too, every category holds exactly the takes that
    satisfy its predicate, in input order. *)
Theorem categorizedResults_correct (takes : list Take) :
  categorizedResults takes = expected_categories amended_reading takes.
Proof.
  rewrite categorizedResults_code_reading. unfold expected_categories.
  rewrite (filter_ext _ _ is_hesitation_readings),
    (filter_ext _ _ is_laughter_readings),
    (filter_ext _ _ is_emotional_peak_readings),
    (filter_ext _ _ is_analytical_readings),
    (filter_ext _ _ is_standard_readings).
  reflexivity.
Qed.

(** C10: the five predicates cover every case; each take of the input
    ends up in at least one category. *)
Theorem every_take_is_categorized (takes : list Take) (t : Take) :
  In t takes ->
  exists key items,
    bucket key (categorizedResults takes) = Some items /\ In t items.
Proof.
  intros Hin. rewrite categorizedResults_code_reading.
  assert (Hin' : forall p, p t = true -> In t (filter p takes))
    by (intros p Hp; apply filter_In; split; assumption).
  destruct (is_hesitation code_reading t) eqn:Hh.
  { exists "Hesitation & Pauses". eexists. split; [reflexivity|]. now apply Hin'. }
  destruct (is_laughter code_reading t) eqn:Hl.
  { exists "Laughter & Humor". eexists. split; [reflexivity|]. now apply Hin'. }
  destruct (is_analytical code_reading t) eqn:Ha.
  { exists "Analytical & Technical". eexists. split; [reflexivity|]. now apply Hin'. }
  destruct (is_emotional_peak code_reading t) eqn:Hp.
  { exists "Emotional Peaks". eexists. split; [reflexivity|]. now apply Hin'. }
  exists "Standard Dialogue". eexists. split; [reflexivity|]. apply Hin'.
  unfold is_hesitation, is_laughter, is_analytical, is_emotional_peak,
    is_standard in *.
  rewrite Hl, Ha in *. rewrite (num_gt_or_le _ Hh). simpl.
  rewrite orb_false_r in Hp. now apply negb_false_iff in Hp.
Qed.

Lemma every_take_is_categorized_witness :
  exists key items,
    bucket key (categorizedResults [take_with_empty_emotion; take_laughing_happy])
      = Some items /\
    In take_laughing_happy items.
Proof.
  apply (@every_take_is_categorized
           [take_with_empty_emotion; take_laughing_happy] take_laughing_happy).
  simpl. right. left. reflexivity.
Defined.

Example hesitating_take_only_in_hesitation :
  categorizedResults [take_hesitating] =
  [("Hesitation & Pauses", [take_hesitating]);
   ("Laughter & Humor", []);
   ("Emotional Peaks", []);
   ("Analytical & Technical", []);
   ("Standard Dialogue", [])].
Proof. reflexivity. Qed.

Example laughing_happy_take_in_two_categories :
  categorizedResults [take_laughing_happy] =
  [("Hesitation & Pauses", []);
   ("Laughter & Humor", [take_laughing_happy]);
   ("Emotional Peaks", [take_laughing_happy]);
   ("Analytical & Technical", []);
   ("Standard Dialogue", [])].
Proof. reflexivity. Qed.

(* ===================================================================== *)
(** ** Auto-selection: properties *)
(* ===================================================================== *)

Lemma find_first_such (p : Take -> bool) (l : list Take) (t : Take) :
  first_such p l t -> find p l = Some t.
Proof.
  intros (before & after & -> & Hp & Hbefore).
  induction Hbefore as [|x before Hx _ IH]; simpl.
  - now rewrite Hp.
  - now rewrite Hx.
Qed.

Lemma find_none_such (p : Take -> bool) (l : list Take) :
  none_such p l -> find p l = None.
Proof.
  intros H. induction H as [|x l Hx _ IH]; simpl; [reflexivity|].
  now rewrite Hx.
Qed.

Lemma find_by_url (parseInt : string -> option Z) (urlTakeId : option string)
    (l : list Take) :
  match urlTakeId with
  | Some u => if truthy_string u then find (matches_url parseInt u) l else None
  | None => None
  end = find (by_url parseInt urlTakeId) l.
Proof.
  unfold by_url, supplied_id, matches_url.
  destruct urlTakeId as [u|].
  - destruct (truthy_string u); [reflexivity|].
    induction l as [|x l IH]; simpl; [reflexivity | exact IH].
  - induction l as [|x l IH]; simpl; [reflexivity | exact IH].
Qed.

(** C4: when a non-empty take list arrives and nothing is selected, the
    selection becomes the first take carrying the identifier supplied in
    the URL, if there is one; else the first take, in server order, whose
    analysis metadata is present and non-empty; else the first take.  When
    a take is selected, it is replaced by the first take of the new list
    with the same id, and kept as it is if the list has none. *)
Theorem fetchTakes_auto_select
    (parseInt : string -> option Z) (urlTakeId : option string)
    (received : list Take) (st : MonitorState) :
  received <> [] ->
  let st' := fetchTakes parseInt true urlTakeId (Fulfilled {| data := received |}) st in
  takes st' = received /\
  (selectedTake st = None ->
   (forall t, first_such (by_url parseInt urlTakeId) received t ->
              selectedTake st' = Some t) /\
   (none_such (by_url parseInt urlTakeId) received ->
    forall t, first_such has_metadata received t -> selectedTake st' = Some t) /\
   (none_such (by_url parseInt urlTakeId) received ->
    none_such has_metadata received ->
    exists first rest, received = first :: rest /\ selectedTake st' = Some first)) /\
  (forall current,
      selectedTake st = Some current ->
      (forall t, first_such (same_id current) received t -> selectedTake st' = Some t) /\
      (none_such (same_id current) received -> selectedTake st' = Some current)).
Proof.
  intros Hne st'. subst st'. unfold fetchTakes. cbn [data].
  destruct received as [|first rest]; [congruence|]. cbn [List.length Nat.ltb Nat.leb].
  cbn [takes selectedTake].
  split; [reflexivity|]. split.
  - intros ->. unfold auto_select. rewrite find_by_url.
    split; [|split].
    + intros t Ht. now rewrite (find_first_such Ht).
    + intros Hnone t Ht.
      now rewrite (find_none_such Hnone), (find_first_such Ht).
    + intros Hnone Hnometa.
      rewrite (find_none_such Hnone), (find_none_such Hnometa).
      exists first, rest. split; reflexivity.
  - intros current ->. unfold auto_select. split.
    + intros t Ht. now rewrite (find_first_such Ht).
    + intros Hnone. now rewrite (find_none_such Hnone).
Qed.

Lemma fetchTakes_auto_select_witness :
  selectedTake
    (fetchTakes sample_parseInt true None
       (Fulfilled {| data := [take_A; take_B; take_C] |}) nothing_selected)
  = Some take_B.
Proof.
  assert (Hne : [take_A; take_B; take_C] <> []) by discriminate.
  destruct (@fetchTakes_auto_select sample_parseInt None
              [take_A; take_B; take_C] nothing_selected Hne)
    as (_ & Hnone & _).
  destruct (Hnone eq_refl) as (_ & Hmeta & _).
  apply Hmeta.
  - repeat constructor.
  - exists [take_A], [take_C]. repeat split. repeat constructor.
Defined.

Example auto_select_follows_url :
  selectedTake
    (fetchTakes sample_parseInt true (Some "3")
       (Fulfilled {| data := [take_A; take_B; take_C] |}) nothing_selected)
  = Some take_C.
Proof. reflexivity. Qed.

(* ===================================================================== *)
(** ** The store actions in direct style *)
(* ===================================================================== *)

Section DirectRuns.

Variable api : Backend.
Variable toLocaleDateString : string -> string.

Lemma fetchProject_run (w : World) :
  fetchProject api toLocaleDateString w =
  let s0 := patch_start (store w) in
  let opened := [(EvSet, s0); (EvRequest ProjectsGetCurrent, s0)] in
  match projects_getCurrent api (requests w) with
  | Fulfilled r =>
      let s1 := patch_project (id (data r)) (name (data r))
                  (description_or_empty (dto_description (data r)))
                  (toLocaleDateString (created_at (data r))) s0 in
      (Returned tt,
       {| store := s1; clock := clock w + latency api (requests w);
          requests := S (requests w);
          trace := trace w ++ opened ++ [(EvSet, s1)] |})
  | Rejected reason =>
      let s1 := patch_failed (error_text reason) s0 in
      (Returned tt,
       {| store := s1; clock := clock w + latency api (requests w);
          requests := S (requests w);
          trace := trace w ++ opened ++ [(EvSet, s1)] |})
  end.
Proof.
  unfold fetchProject, api_projects_getCurrent, bind, try_catch, set, request,
    record; simpl.
  destruct (projects_getCurrent api (requests w)); simpl;
    rewrite <- ?app_assoc; reflexivity.
Qed.

Lemma fetchTimeline_run (w : World) :
  fetchTimeline api w =
  let s0 := patch_start (store w) in
  let opened := [(EvSet, s0); (EvRequest TimelineGet, s0)] in
  match timeline_get api (requests w) with
  | Fulfilled r =>
      let s1 := patch_timeline (data r) s0 in
      (Returned tt,
       {| store := s1; clock := clock w + latency api (requests w);
          requests := S (requests w);
          trace := trace w ++ opened ++ [(EvSet, s1)] |})
  | Rejected reason =>
      let s1 := patch_failed (error_text reason) s0 in
      (Returned tt,
       {| store := s1; clock := clock w + latency api (requests w);
          requests := S (requests w);
          trace := trace w ++ opened ++ [(EvSet, s1)] |})
  end.
Proof.
  unfold fetchTimeline, api_timeline_get, bind, try_catch, set, request,
    record; simpl.
  destruct (timeline_get api (requests w)); simpl;
    rewrite <- ?app_assoc; reflexivity.
Qed.

Lemma uploadMedia_run (file : File) (w : World) :
  uploadMedia api file w =
  let s0 := patch_start (store w) in
  let opened := [(EvSet, s0); (EvRequest (MediaUpload file), s0)] in
  match media_upload api file (requests w) with
  | Fulfilled r =>
      let s1 := patch_done s0 in
      (Returned (data r),
       {| store := s1; clock := clock w + latency api (requests w);
          requests := S (requests w);
          trace := trace w ++ opened ++ [(EvSet, s1)] |})
  | Rejected reason =>
      let s1 := patch_failed (error_text reason) s0 in
      (Threw reason,
       {| store := s1; clock := clock w + latency api (requests w);
          requests := S (requests w);
          trace := trace w ++ opened ++ [(EvSet, s1)] |})
  end.
Proof.
  unfold uploadMedia, api_media_upload, bind, try_catch, set, request, ret,
    throw, record; simpl.
  destruct (media_upload api file (requests w)); simpl;
    rewrite <- ?app_assoc; reflexivity.
Qed.

Lemma attempts_le_requests (l : list Entry) :
  (attempts l <= count_requests l)%nat.
Proof.
  unfold attempts, count_requests.
  induction l as [|[ev s] l IH]; simpl; [lia|].
  destruct ev as [|[]| | |]; simpl; lia.
Qed.

Lemma count_requests_app (l1 l2 : list Entry) :
  count_requests (l1 ++ l2) = (count_requests l1 + count_requests l2)%nat.
Proof. unfold count_requests. now rewrite filter_app, length_app. Qed.

(** The whole course of a stats fetch, for any backend: [k] rejected
    attempts, each followed by a delay, then the attempt that ends it. *)
Lemma fetchDashboardStats_course (n : nat) :
  forall (retries : Z) (w : World),
    Z.to_nat retries = n ->
    exists (k : nat) (added : list Entry) (w' : World),
      fetchDashboardStats api retries w = (Returned tt, w') /\
      trace w' = trace w ++ added /\
      (k <= n)%nat /\
      (forall j, (j < k)%nat ->
                 is_fulfilled (projects_getDashboardStats api (requests w + j)) = false) /\
      requests w' = (requests w + S k)%nat /\
      attempts added = S k /\
      count_requests added = S k /\
      delays added = repeat 2000 k /\
      clock w' = clock w + 2000 * Z.of_nat k + latency_sum api (requests w) (S k) /\
      Forall (fun en => snd en = patch_start (store w) \/ snd en = store w') added /\
      match projects_getDashboardStats api (requests w + k) with
      | Fulfilled r =>
          store w' = patch_stats (data r) (clock w') (patch_start (store w))
      | Rejected _ =>
          k = n /\ store w' = patch_failed exhausted_message (store w)
      end.
Proof.
  induction n as [|m IH]; intros retries w Hn;
    rewrite fetchDashboardStats_step;
    destruct (projects_getDashboardStats api (requests w)) as [r|reason] eqn:E.
  - exists 0%nat. eexists. eexists. split; [reflexivity|]. simpl.
    split; [rewrite <- app_assoc; reflexivity|].
    rewrite Nat.add_0_r, E. simpl.
    repeat split; try reflexivity; try lia.
    repeat (apply Forall_cons; [simpl; auto|]); apply Forall_nil.
  - replace (retries >? 0) with false
      by (symmetry; rewrite Z.gtb_ltb; apply Z.ltb_ge; lia).
    exists 0%nat. eexists. eexists. split; [reflexivity|]. simpl.
    split; [rewrite <- app_assoc; reflexivity|].
    rewrite Nat.add_0_r, E. simpl.
    repeat split; try reflexivity; try lia.
    repeat (apply Forall_cons; [simpl; auto|]); apply Forall_nil.
  - exists 0%nat. eexists. eexists. split; [reflexivity|]. simpl.
    split; [rewrite <- app_assoc; reflexivity|].
    rewrite Nat.add_0_r, E. simpl.
    repeat split; try reflexivity; try lia.
    repeat (apply Forall_cons; [simpl; auto|]); apply Forall_nil.
  - replace (retries >? 0) with true
      by (symmetry; rewrite Z.gtb_ltb; apply Z.ltb_lt; lia).
    destruct (IH (retries - 1) (waited api retries w) ltac:(lia))
      as (k & added & w' & Hrun & Htr & Hk & Hrej & Hreq & Hatt & Hcnt & Hdel
          & Hclk & Hobs & Hend).
    exists (S k),
      ([(EvSet, patch_start (store w));
        (EvRequest ProjectsGetDashboardStats, patch_start (store w));
        (EvConsoleLog (retry_line retries), patch_start (store w));
        (EvTimeout 2000, patch_start (store w))] ++ added), w'.
    split; [exact Hrun|].
    split; [rewrite Htr; simpl; rewrite <- !app_assoc; reflexivity|].
    split; [lia|].
    split.
    { intros j Hj. destruct j as [|j].
      - rewrite Nat.add_0_r, E. reflexivity.
      - replace (requests w + S j)%nat with (requests (waited api retries w) + j)%nat
          by (simpl; lia).
        apply Hrej. lia. }
    split; [rewrite Hreq; simpl; lia|].
    split; [rewrite attempts_app, Hatt; reflexivity|].
    split; [rewrite count_requests_app, Hcnt; reflexivity|].
    split; [rewrite delays_app, Hdel; reflexivity|].
    split.
    { rewrite Hclk. cbn [waited attempted clock requests].
      change (latency_sum api (requests w) (S (S k)))
        with (latency api (requests w) + latency_sum api (S (requests w)) (S k)).
      lia. }
    split.
    { apply Forall_app. split;
        [repeat (apply Forall_cons; [simpl; auto|]); apply Forall_nil|].
      exact Hobs. }
    replace (requests w + S k)%nat with (requests (waited api retries w) + k)%nat
      by (simpl; lia).
    destruct (projects_getDashboardStats api (requests (waited api retries w) + k)).
    + exact Hend.
    + destruct Hend as [-> Hst]. split; [reflexivity | exact Hst].
Qed.

End DirectRuns.

(* ===================================================================== *)
(** ** Further properties of the store *)
(* ===================================================================== *)

(** X1: whatever the backend answers, a stats fetch with [retries] returns
    after [k+1] attempts, where the first [k <= max(retries, 0)] attempts
    were rejected; it waited [k] times 2000 and the clock advanced by these
    delays plus the latencies of its requests.  It stops at the first
    fulfilled attempt, storing that response with the clock as
    [lastUpdated]; otherwise [k = max(retries, 0)] and the fixed message is
    the error. *)
Theorem fetchDashboardStats_stops_at_first_answer
    (api : Backend) (retries : Z) (w : World) :
  exists (k : nat) (added : list Entry) (w' : World),
    fetchDashboardStats api retries w = (Returned tt, w') /\
    trace w' = trace w ++ added /\
    (k <= Z.to_nat retries)%nat /\
    (forall j, (j < k)%nat ->
               is_fulfilled (projects_getDashboardStats api (requests w + j)) = false) /\
    attempts added = S k /\
    delays added = repeat 2000 k /\
    clock w' = clock w + 2000 * Z.of_nat k + latency_sum api (requests w) (S k) /\
    match projects_getDashboardStats api (requests w + k) with
    | Fulfilled r =>
        dashboardStats (store w') = Some (data r) /\
        lastUpdated (store w') = Some (clock w') /\
        loading (store w') = false /\ error (store w') = None
    | Rejected _ =>
        k = Z.to_nat retries /\
        error (store w') = Some exhausted_message /\
        loading (store w') = false /\
        stats_fields (store w') = stats_fields (store w)
    end.
Proof.
  destruct (@fetchDashboardStats_course api _ retries w eq_refl)
    as (k & added & w' & Hrun & Htr & Hk & Hrej & _ & Hatt & _ & Hdel & Hclk & _ & Hend).
  exists k, added, w'. repeat (split; [assumption|]).
  destruct (projects_getDashboardStats api (requests w + k)).
  - rewrite Hend. repeat split.
  - destruct Hend as [-> ->]. repeat split.
Qed.

(** X2: with [retries <= 0] (zero or negative) a stats fetch makes exactly
    one attempt and never waits. *)
Theorem fetchDashboardStats_without_retries
    (api : Backend) (retries : Z) (w : World) :
  retries <= 0 ->
  exists (added : list Entry) (w' : World),
    fetchDashboardStats api retries w = (Returned tt, w') /\
    trace w' = trace w ++ added /\
    attempts added = 1%nat /\
    delays added = [] /\
    requests w' = S (requests w) /\
    clock w' = clock w + latency api (requests w).
Proof.
  intros Hle.
  destruct (@fetchDashboardStats_course api _ retries w eq_refl)
    as (k & added & w' & Hrun & Htr & Hk & _ & Hreq & Hatt & _ & Hdel & Hclk & _).
  assert (k = 0%nat) by lia. subst k.
  exists added, w'. repeat split; try assumption.
  - rewrite Hreq. lia.
  - rewrite Hclk. simpl. lia.
Qed.

Lemma fetchDashboardStats_without_retries_witness :
  exists (added : list Entry) (w' : World),
    fetchDashboardStats backend_down (-2) fresh_world = (Returned tt, w') /\
    trace w' = trace fresh_world ++ added /\
    attempts added = 1%nat /\
    delays added = [] /\
    requests w' = S (requests fresh_world) /\
    clock w' = clock fresh_world + latency backend_down (requests fresh_world).
Proof.
  apply (@fetchDashboardStats_without_retries backend_down (-2) fresh_world). lia.
Defined.

(** What one action does to the world, action by action. *)
Lemma perform_effect
    (api : Backend) (toLocaleDateString : string -> string)
    (a : Action) (w : World) :
  let w' := snd (perform api toLocaleDateString a w) in
  exists added,
    trace w' = trace w ++ added /\
    requests w' = (requests w + count_requests added)%nat /\
    (count_requests added <= request_budget a)%nat /\
    (writes_progress a = false -> (1 <= count_requests added)%nat) /\
    Forall (fun en =>
              if global_fetch a
              then snd en = patch_start (store w) \/ snd en = store w'
              else snd en = store w \/ snd en = store w') added /\
    static_fields (store w') = static_fields (store w) /\
    (writes_project a = false -> project_fields (store w') = project_fields (store w)) /\
    (writes_timeline a = false -> timeline (store w') = timeline (store w)) /\
    (writes_stats a = false -> stats_fields (store w') = stats_fields (store w)) /\
    (writes_progress a = false ->
     processingProgress (store w') = processingProgress (store w)) /\
    (dashboardStats (store w) <> None -> dashboardStats (store w') <> None) /\
    ((dashboardStats (store w) = None <-> lastUpdated (store w) = None) ->
     (dashboardStats (store w') = None <-> lastUpdated (store w') = None)).
Proof.
  intros w'. subst w'. rewrite perform_world.
  destruct a as [| |takeId|progress|file|retries].
  - rewrite fetchProject_run.
    destruct (projects_getCurrent api (requests w)); cbn -[Z.add];
      eexists; (split; [reflexivity|]); cbn;
      repeat split; try reflexivity; try lia; try discriminate; try tauto;
      repeat (apply Forall_cons; [simpl; auto|]); try apply Forall_nil.
  - rewrite fetchTimeline_run.
    destruct (timeline_get api (requests w)); cbn -[Z.add];
      eexists; (split; [reflexivity|]); cbn;
      repeat split; try reflexivity; try lia; try discriminate; try tauto;
      repeat (apply Forall_cons; [simpl; auto|]); try apply Forall_nil.
  - rewrite getProcessingStatus_run.
    destruct (processing_getStatus api takeId (requests w)); cbn -[Z.add];
      eexists; (split; [reflexivity|]); cbn;
      repeat split; try reflexivity; try lia; try discriminate; try tauto;
      repeat (apply Forall_cons; [simpl; auto|]); try apply Forall_nil.
  - unfold setProcessingProgress, set, record; cbn.
    eexists; (split; [reflexivity|]); cbn.
    repeat split; try reflexivity; try lia; try discriminate; try tauto.
    repeat (apply Forall_cons; [simpl; auto|]); apply Forall_nil.
  - rewrite uploadMedia_run.
    destruct (media_upload api file (requests w)); cbn -[Z.add];
      eexists; (split; [reflexivity|]); cbn;
      repeat split; try reflexivity; try lia; try discriminate; try tauto;
      repeat (apply Forall_cons; [simpl; auto|]); try apply Forall_nil.
  - destruct (@fetchDashboardStats_course api _ retries w eq_refl)
      as (k & added & w' & Hrun & Htr & Hk & _ & Hreq & _ & Hcnt & _ & _ & Hobs & Hend).
    rewrite Hrun. cbn [snd]. exists added.
    split; [exact Htr|]. split; [rewrite Hreq, Hcnt; reflexivity|].
    split; [rewrite Hcnt; simpl; lia|]. split; [intros _; rewrite Hcnt; lia|].
    split; [exact Hobs|].
    destruct (projects_getDashboardStats api (requests w + k)).
    + rewrite Hend. cbn.
      repeat split; try reflexivity; try discriminate.
    + destruct Hend as [_ ->]. cbn.
      repeat split; try reflexivity; try discriminate; tauto.
Qed.

(** X3: no partially updated store is ever observable.  Every store state
    recorded during a run of a reporting action is either the state at
    invocation with [loading] raised and [error] cleared, or the final
    state; for the two other actions it is the state at invocation or the
    final state. *)
Theorem actions_expose_no_partial_state
    (api : Backend) (toLocaleDateString : string -> string)
    (a : Action) (w : World) (en : Entry) :
  In en (emitted w (snd (perform api toLocaleDateString a w))) ->
  let w' := snd (perform api toLocaleDateString a w) in
  if global_fetch a
  then snd en = patch_start (store w) \/ snd en = store w'
  else snd en = store w \/ snd en = store w'.
Proof.
  intros Hin w'. subst w'.
  destruct (perform_effect api toLocaleDateString a w)
    as (added & Htr & _ & _ & _ & Hobs & _).
  rewrite (emitted_app _ _ _ Htr) in Hin.
  rewrite Forall_forall in Hobs. exact (Hobs en Hin).
Qed.

Lemma actions_expose_no_partial_state_witness :
  let w' := snd (perform backend_flaky sample_locale (FetchDashboardStats 3) fresh_world) in
  patch_start (store fresh_world) = patch_start (store fresh_world) \/
  patch_start (store fresh_world) = store w'.
Proof.
  apply (@actions_expose_no_partial_state backend_flaky sample_locale
           (FetchDashboardStats 3) fresh_world
           (EvTimeout 2000, patch_start (store fresh_world))).
  vm_compute. right. right. right. left. reflexivity.
Defined.

(** X4: each action writes only the fields it owns, whatever the outcome.
    [cameras], [totalFootage], [aiConfidenceHealth] and [issues] are written
    by no action; the project fields only by fetchProject, [timeline] only
    by fetchTimeline, [dashboardStats] and [lastUpdated] only by
    fetchDashboardStats, [processingProgress] only by setProcessingProgress
    (in particular a stats fetch does not copy the snapshot's progress or
    issue counts into the top-level fields, and an upload caches nothing). *)
Theorem actions_write_only_their_fields
    (api : Backend) (toLocaleDateString : string -> string)
    (a : Action) (w : World) :
  let s := store w in
  let s' := store (snd (perform api toLocaleDateString a w)) in
  static_fields s' = static_fields s /\
  (writes_project a = false -> project_fields s' = project_fields s) /\
  (writes_timeline a = false -> timeline s' = timeline s) /\
  (writes_stats a = false -> stats_fields s' = stats_fields s) /\
  (writes_progress a = false -> processingProgress s' = processingProgress s).
Proof.
  intros s s'. subst s s'.
  destruct (perform_effect api toLocaleDateString a w)
    as (added & _ & _ & _ & _ & _ & H1 & H2 & H3 & H4 & H5 & _).
  repeat split; assumption.
Qed.

Lemma actions_write_only_their_fields_witness :
  let s := store fresh_world in
  let s' := store (snd (perform backend_flaky sample_locale (FetchDashboardStats 3)
                          fresh_world)) in
  static_fields s' = static_fields s /\
  project_fields s' = project_fields s /\
  timeline s' = timeline s /\
  processingProgress s' = processingProgress s.
Proof.
  destruct (actions_write_only_their_fields backend_flaky sample_locale
              (FetchDashboardStats 3) fresh_world) as (H0 & H1 & H2 & _ & H4).
  split; [exact H0|].
  split; [apply H1; reflexivity|].
  split; [apply H2; reflexivity | apply H4; reflexivity].
Defined.

(** X5: the requests of an action.  The request counter advances by the
    number of requests the action issued; that number is 0 for
    setProcessingProgress, exactly 1 for fetchProject, fetchTimeline,
    getProcessingStatus and uploadMedia, and between 1 and
    [max(retries, 0) + 1] for fetchDashboardStats. *)
Theorem actions_request_budget
    (api : Backend) (toLocaleDateString : string -> string)
    (a : Action) (w : World) :
  let w' := snd (perform api toLocaleDateString a w) in
  let issued := count_requests (emitted w w') in
  requests w' = (requests w + issued)%nat /\
  (issued <= request_budget a)%nat /\
  (if writes_progress a then issued = 0%nat else (1 <= issued)%nat).
Proof.
  intros w' issued. subst w' issued.
  destruct (perform_effect api toLocaleDateString a w)
    as (added & Htr & Hreq & Hle & Hge & _).
  rewrite (emitted_app _ _ _ Htr).
  split; [exact Hreq|]. split; [exact Hle|].
  destruct (writes_progress a) eqn:Hw.
  - destruct a; try discriminate. simpl in Hle. lia.
  - now apply Hge.
Qed.

Lemma perform_lowers_loading
    (api : Backend) (toLocaleDateString : string -> string)
    (a : Action) (w : World) :
  loading (store w) = false ->
  loading (store (snd (perform api toLocaleDateString a w))) = false.
Proof.
  intros Hidle. destruct (global_fetch a) eqn:Hg.
  - pose proof (perform_settles api toLocaleDateString a w Hg) as Hs.
    apply (settles_flags Hs).
  - destruct a as [| |takeId|progress|file|retries]; try discriminate;
      rewrite perform_world.
    + rewrite getProcessingStatus_run.
      destruct (processing_getStatus api takeId (requests w)); exact Hidle.
    + exact Hidle.
Qed.

(** X6: invariants of every store reachable from the initial state by
    running actions one after another, whatever the backend: the store is
    not loading; [cameras], [totalFootage], [aiConfidenceHealth] and
    [issues] still hold their initial values (so the dashboard's camera
    count, read from [cameras.length], stays 0); and a snapshot is cached
    exactly when [lastUpdated] is set. *)
Theorem reachable_store_invariants
    (api : Backend) (toLocaleDateString : string -> string)
    (actions : list Action) (w : World) :
  store w = initialState ->
  let s := store (run_all api toLocaleDateString actions w) in
  loading s = false /\
  static_fields s = static_fields initialState /\
  List.length (cameras s) = 0%nat /\
  (dashboardStats s = None <-> lastUpdated s = None).
Proof.
  intros Hinit s. subst s.
  assert (Hgen : forall w0,
             loading (store w0) = false ->
             static_fields (store w0) = static_fields initialState ->
             (dashboardStats (store w0) = None <-> lastUpdated (store w0) = None) ->
             let s := store (run_all api toLocaleDateString actions w0) in
             loading s = false /\
             static_fields s = static_fields initialState /\
             (dashboardStats s = None <-> lastUpdated s = None)).
  { induction actions as [|a rest IH]; intros w0 Hl Hs Hd; simpl.
    - repeat split; try assumption; apply Hd.
    - destruct (perform_effect api toLocaleDateString a w0)
        as (added & _ & _ & _ & _ & _ & Hstatic & _ & _ & _ & _ & _ & Hdated).
      apply IH.
      + now apply perform_lowers_loading.
      + now rewrite Hstatic.
      + now apply Hdated. }
  destruct (Hgen w) as (Hl & Hs & Hd); try (rewrite Hinit; simpl; tauto).
  repeat split; try assumption; try apply Hd.
  unfold static_fields in Hs. inversion Hs as [[Hc Ht Ha Hi]].
  rewrite Hc. reflexivity.
Qed.

Lemma reachable_store_invariants_witness :
  let s := store (run_all backend_flaky sample_locale
                    [FetchProject; FetchDashboardStats 3; UploadMedia sample_file;
                     SetProcessingProgress 50%Q]
                    fresh_world) in
  loading s = false /\
  static_fields s = static_fields initialState /\
  List.length (cameras s) = 0%nat /\
  (dashboardStats s = None <-> lastUpdated s = None).
Proof.
  apply (@reachable_store_invariants backend_flaky sample_locale
           [FetchProject; FetchDashboardStats 3; UploadMedia sample_file;
            SetProcessingProgress 50%Q] fresh_world).
  reflexivity.
Defined.

(** X7: what a successful fetch stores.  A fulfilled fetchProject stores
    the project's id, name and description (the empty string when the
    description is missing) and the local date string of [created_at]; a
    fulfilled fetchTimeline stores the payload as [timeline].  Both end
    with no error and not loading. *)
Theorem fetch_success_stores_payload
    (api : Backend) (toLocaleDateString : string -> string) (w : World) :
  (forall r,
      projects_getCurrent api (requests w) = Fulfilled r ->
      let s' := store (snd (fetchProject api toLocaleDateString w)) in
      projectId s' = Some (id (data r)) /\
      projectName s' = name (data r) /\
      description s' =
        match dto_description (data r) with Some d => d | None => "" end /\
      shootDate s' = toLocaleDateString (created_at (data r)) /\
      error s' = None /\ loading s' = false) /\
  (forall r,
      timeline_get api (requests w) = Fulfilled r ->
      let s' := store (snd (fetchTimeline api w)) in
      timeline s' = data r /\ error s' = None /\ loading s' = false).
Proof.
  split; intros r Hr s'; subst s'.
  - rewrite fetchProject_run, Hr. cbn. repeat split.
  - rewrite fetchTimeline_run, Hr. cbn. repeat split.
Qed.

Lemma fetch_success_stores_payload_witness :
  let s' := store (snd (fetchProject backend_flaky sample_locale fresh_world)) in
  projectId s' = Some 11 /\
  projectName s' = "Pilot" /\
  description s' = "" /\
  shootDate s' = "2024-01-05" /\
  error s' = None /\ loading s' = false.
Proof.
  destruct (fetch_success_stores_payload backend_flaky sample_locale fresh_world)
    as [H _].
  apply (H {| data := sample_project |}). reflexivity.
Defined.

(** X8: a cached snapshot is never dropped.  Once [dashboardStats] is set,
    it is still set after any action, failed or not, and at no store state
    recorded during the action does the dashboard's skeleton condition
    [loading && !dashboardStats] hold: a refresh keeps showing the last
    figures. *)
Theorem cached_snapshot_survives
    (api : Backend) (toLocaleDateString : string -> string)
    (a : Action) (w : World) :
  dashboardStats (store w) <> None ->
  let w' := snd (perform api toLocaleDateString a w) in
  dashboardStats (store w') <> None /\
  show_skeleton (store w') = false /\
  Forall (fun en => show_skeleton (snd en) = false) (emitted w w').
Proof.
  intros Hcached w'. subst w'.
  destruct (perform_effect api toLocaleDateString a w)
    as (added & Htr & _ & _ & _ & Hobs & _ & _ & _ & _ & _ & Hkeep & _).
  specialize (Hkeep Hcached).
  assert (Hsk : forall s, dashboardStats s <> None -> show_skeleton s = false).
  { intros s Hs. unfold show_skeleton.
    destruct (dashboardStats s); [apply andb_false_r | congruence]. }
  split; [exact Hkeep|]. split; [now apply Hsk|].
  rewrite (emitted_app _ _ _ Htr).
  rewrite Forall_forall in *. intros en Hin. specialize (Hobs en Hin).
  apply Hsk. destruct (global_fetch a); destruct Hobs as [-> | ->];
    try assumption.
Qed.

Lemma cached_snapshot_survives_witness :
  let w := snd (perform backend_flaky sample_locale (FetchDashboardStats 3) fresh_world) in
  let w' := snd (perform backend_down sample_locale (FetchDashboardStats 3) w) in
  dashboardStats (store w') <> None /\
  show_skeleton (store w') = false /\
  Forall (fun en => show_skeleton (snd en) = false) (emitted w w').
Proof.
  apply (@cached_snapshot_survives backend_down sample_locale (FetchDashboardStats 3)
           (snd (perform backend_flaky sample_locale (FetchDashboardStats 3)
                   fresh_world))).
  vm_compute. discriminate.
Defined.

Lemma quiet_action_keeps_flags
    (api : Backend) (toLocaleDateString : string -> string)
    (a : Action) (w : World) :
  global_fetch a = false ->
  let s' := store (snd (perform api toLocaleDateString a w)) in
  loading s' = loading (store w) /\ error s' = error (store w).
Proof.
  intros Hq s'. subst s'.
  destruct a as [| |takeId|progress|file|retries]; try discriminate;
    rewrite perform_world.
  - rewrite getProcessingStatus_run.
    destruct (processing_getStatus api takeId (requests w)); split; reflexivity.
  - split; reflexivity.
Qed.

(** X9: status polls and progress updates never disturb what the fetches
    cached or reported.  After any number of getProcessingStatus and
    setProcessingProgress calls, in any order and whatever the backend
    answers, [loading], [error], the project fields, [timeline],
    [dashboardStats] and [lastUpdated] are as before; an error left by a
    failed fetch stays on display. *)
Theorem polling_leaves_global_state
    (api : Backend) (toLocaleDateString : string -> string)
    (actions : list Action) (w : World) :
  Forall (fun a => global_fetch a = false) actions ->
  let s' := store (run_all api toLocaleDateString actions w) in
  loading s' = loading (store w) /\
  error s' = error (store w) /\
  project_fields s' = project_fields (store w) /\
  timeline s' = timeline (store w) /\
  stats_fields s' = stats_fields (store w).
Proof.
  intros Hquiet. revert w.
  induction Hquiet as [|a rest Ha _ IH]; intros w; simpl.
  - repeat split.
  - destruct (IH (snd (perform api toLocaleDateString a w)))
      as (Hl & He & Hp & Ht & Hs).
    destruct (quiet_action_keeps_flags api toLocaleDateString a w Ha) as [Hl0 He0].
    destruct (perform_effect api toLocaleDateString a w)
      as (added & _ & _ & _ & _ & _ & _ & Hp0 & Ht0 & Hs0 & _).
    assert (writes_project a = false /\ writes_timeline a = false /\
            writes_stats a = false) as (W1 & W2 & W3)
      by (destruct a; try discriminate; repeat split).
    rewrite Hl, He, Hp, Ht, Hs, Hl0, He0, (Hp0 W1), (Ht0 W2), (Hs0 W3).
    repeat split.
Qed.

Lemma polling_leaves_global_state_witness :
  let w := world_after_failed_fetchProject in
  let s' := store (run_all backend_flaky sample_locale
                     [GetProcessingStatus 7; SetProcessingProgress 30%Q;
                      GetProcessingStatus 7] w) in
  loading s' = loading (store w) /\
  error s' = error (store w) /\
  project_fields s' = project_fields (store w) /\
  timeline s' = timeline (store w) /\
  stats_fields s' = stats_fields (store w).
Proof.
  apply (@polling_leaves_global_state backend_flaky sample_locale
           [GetProcessingStatus 7; SetProcessingProgress 30%Q; GetProcessingStatus 7]
           world_after_failed_fetchProject).
  repeat constructor.
Defined.

(* ===================================================================== *)
(** ** Further properties of the auto-selection *)
(* ===================================================================== *)

Lemma same_id_true (cur t : Take) : same_id cur t = true -> take_id t = take_id cur.
Proof. unfold same_id. apply Z.eqb_eq. Qed.

Lemma find_same_id_congr (cur u : Take) (l : list Take) :
  take_id u = take_id cur -> find (same_id u) l = find (same_id cur) l.
Proof.
  intros Hid. induction l as [|x l IH]; simpl; [reflexivity|].
  unfold same_id at 1 3. rewrite Hid. fold (same_id cur x).
  destruct (same_id cur x); [reflexivity | exact IH].
Qed.

Lemma find_same_id_unique (t : Take) (l : list Take) :
  NoDup (map take_id l) -> In t l -> find (same_id t) l = Some t.
Proof.
  induction l as [|x l IH]; intros Hnd Hin; [contradiction|].
  simpl in Hnd. inversion Hnd as [|? ? Hnotin Hnd']; subst.
  simpl. destruct Hin as [->|Hin].
  - unfold same_id. now rewrite Z.eqb_refl.
  - destruct (same_id t x) eqn:E.
    + apply same_id_true in E. elim Hnotin. rewrite E.
      now apply in_map.
    + now apply IH.
Qed.

Lemma auto_select_none_in
    (parseInt : string -> option Z) (urlTakeId : option string)
    (first : Take) (rest : list Take) :
  exists t, auto_select parseInt urlTakeId None (first :: rest) = Some t /\
            In t (first :: rest).
Proof.
  unfold auto_select. rewrite find_by_url.
  destruct (find (by_url parseInt urlTakeId) (first :: rest)) as [t|] eqn:E1.
  - exists t. split; [reflexivity|]. now apply find_some in E1.
  - destruct (find has_metadata (first :: rest)) as [t|] eqn:E2.
    + exists t. split; [reflexivity|]. now apply find_some in E2.
    + exists first. split; [reflexivity | now left].
Qed.

(** X10: polling never moves the selection to another take.  Whatever
    [fetchTakes] receives (a list, an empty list, a failure) and whether or
    not the view is still mounted, a selected take stays selected under the
    same id; the selection is never cleared. *)
Theorem fetchTakes_keeps_selected_id
    (parseInt : string -> option Z) (isMounted : bool) (urlTakeId : option string)
    (response : Settled (list Take)) (st : MonitorState) (current : Take) :
  selectedTake st = Some current ->
  exists t,
    selectedTake (fetchTakes parseInt isMounted urlTakeId response st) = Some t /\
    take_id t = take_id current.
Proof.
  intros Hsel. unfold fetchTakes.
  destruct response as [r|reason]; [|now exists current].
  destruct isMounted; [|now exists current].
  cbn [selectedTake].
  destruct (0 <? List.length (data r))%nat; [|now exists current].
  rewrite Hsel. unfold auto_select.
  destruct (find (same_id current) (data r)) as [u|] eqn:E.
  - exists u. split; [reflexivity|].
    apply find_some in E. now apply same_id_true.
  - now exists current.
Qed.

Lemma fetchTakes_keeps_selected_id_witness :
  exists t,
    selectedTake
      (fetchTakes sample_parseInt true (Some "3")
         (Fulfilled {| data := [take_A; take_B; take_C] |})
         {| takes := []; selectedTake := Some take_B |}) = Some t /\
    take_id t = take_id take_B.
Proof.
  apply (@fetchTakes_keeps_selected_id sample_parseInt true (Some "3")
           (Fulfilled {| data := [take_A; take_B; take_C] |})
           {| takes := []; selectedTake := Some take_B |} take_B).
  reflexivity.
Defined.

(** X11: once a non-empty list has been received by a mounted view,
    something is selected, and it is a take of that list unless it is the
    previous selection, kept because its id is gone from the list. *)
Theorem fetchTakes_selects_from_list
    (parseInt : string -> option Z) (urlTakeId : option string)
    (received : list Take) (st : MonitorState) :
  received <> [] ->
  exists t,
    selectedTake (fetchTakes parseInt true urlTakeId
                    (Fulfilled {| data := received |}) st) = Some t /\
    (In t received \/
     (selectedTake st = Some t /\ none_such (same_id t) received)).
Proof.
  intros Hne. destruct received as [|first rest]; [congruence|].
  unfold fetchTakes. cbn [data selectedTake List.length Nat.ltb Nat.leb].
  destruct (selectedTake st) as [cur|] eqn:Hsel.
  - unfold auto_select.
    destruct (find (same_id cur) (first :: rest)) as [u|] eqn:E.
    + exists u. split; [reflexivity|]. left. now apply find_some in E.
    + exists cur. split; [reflexivity|]. right. split; [reflexivity|].
      unfold none_such. apply Forall_forall. intros x Hx.
      exact (find_none _ _ E x Hx).
  - destruct (auto_select_none_in parseInt urlTakeId first rest) as (t & Ht & Hin).
    exists t. split; [exact Ht | now left].
Qed.

Lemma fetchTakes_selects_from_list_witness :
  exists t,
    selectedTake (fetchTakes sample_parseInt true None
                    (Fulfilled {| data := [take_A; take_B] |})
                    {| takes := []; selectedTake := Some take_C |}) = Some t /\
    (In t [take_A; take_B] \/
     (selectedTake {| takes := []; selectedTake := Some take_C |} = Some t /\
      none_such (same_id t) [take_A; take_B])).
Proof.
  apply (@fetchTakes_selects_from_list sample_parseInt None [take_A; take_B]
           {| takes := []; selectedTake := Some take_C |}).
  discriminate.
Defined.

(** X12: polling is stable.  When the ids of the received takes are
    pairwise distinct, receiving the same list a second time changes
    nothing: the selection made on the first receipt is confirmed. *)
Theorem fetchTakes_idempotent
    (parseInt : string -> option Z) (isMounted : bool) (urlTakeId : option string)
    (received : list Take) (st : MonitorState) :
  NoDup (map take_id received) ->
  let once := fetchTakes parseInt isMounted urlTakeId
                (Fulfilled {| data := received |}) st in
  fetchTakes parseInt isMounted urlTakeId (Fulfilled {| data := received |}) once
  = once.
Proof.
  intros Hnd once. subst once. unfold fetchTakes.
  destruct isMounted; [|reflexivity].
  cbn [data takes selectedTake].
  destruct received as [|first rest]; [reflexivity|].
  cbn [List.length Nat.ltb Nat.leb]. f_equal.
  destruct (selectedTake st) as [cur|].
  - unfold auto_select.
    destruct (find (same_id cur) (first :: rest)) as [u|] eqn:E.
    + assert (Hid : take_id u = take_id cur)
        by (apply find_some in E; now apply same_id_true).
      now rewrite (find_same_id_congr _ _ _ Hid), E.
    + now rewrite E.
  - destruct (auto_select_none_in parseInt urlTakeId first rest) as (t & Ht & Hin).
    rewrite Ht. unfold auto_select at 1.
    now rewrite (find_same_id_unique _ _ Hnd Hin).
Qed.

Lemma fetchTakes_idempotent_witness :
  let once := fetchTakes sample_parseInt true (Some "3")
                (Fulfilled {| data := [take_A; take_B; take_C] |}) nothing_selected in
  fetchTakes sample_parseInt true (Some "3")
    (Fulfilled {| data := [take_A; take_B; take_C] |}) once
  = once.
Proof.
  apply (@fetchTakes_idempotent sample_parseInt true (Some "3")
           [take_A; take_B; take_C] nothing_selected).
  repeat constructor; simpl; intuition discriminate.
Defined.

(* ===================================================================== *)
(** ** Status polling and panels of the AI monitor *)
(* ===================================================================== *)

(** X13: a status poll never writes the store and issues one request.  The
    displayed status is replaced only by a truthy payload received while
    the view is mounted; a rejected request, a falsy payload or an
    unmounted view leave it as it was.  [isPolling] is lowered exactly when
    the view is still mounted. *)
Theorem pollStatus_effect
    (api : Backend) (isMounted : bool) (takeId : Z)
    (st : StatusState) (w : World) :
  let st' := fst (pollStatus api isMounted takeId st w) in
  let w' := snd (pollStatus api isMounted takeId st w) in
  store w' = store w /\
  requests w' = S (requests w) /\
  statusData st' =
    match processing_getStatus api takeId (requests w) with
    | Fulfilled r =>
        if isMounted && truthy_json (data r) then Some (data r) else statusData st
    | Rejected _ => statusData st
    end /\
  isPolling st' = negb isMounted.
Proof.
  intros st' w'. subst st' w'. unfold pollStatus.
  rewrite getProcessingStatus_run.
  destruct (processing_getStatus api takeId (requests w)) as [r|reason];
    destruct isMounted; cbn; try destruct (truthy_json (data r)); cbn;
    repeat split.
Qed.

Lemma isComplete_of_metadata (sd : option Json) (t : Take) :
  has_metadata t = true -> isComplete sd (Some t) = true.
Proof.
  intros H. unfold isComplete. rewrite H.
  now rewrite orb_true_r.
Qed.

Lemma has_metadata_present (t : Take) :
  has_metadata t = true -> ai_metadata t <> None.
Proof. unfold has_metadata. destruct (ai_metadata t); [discriminate | discriminate]. Qed.

(** X14: the main area renders at most one panel, and renders none exactly
    when a take is selected that counts as complete (by a "completed"
    status or by a positive confidence score) while it carries no
    [ai_metadata]: neither the progress/error panel nor the insights panel
    applies. *)
Theorem main_panels_at_most_one (sd : option Json) (selected : option Take) :
  (List.length (main_panels sd selected) <= 1)%nat /\
  (main_panels sd selected = [] <->
   exists t, selected = Some t /\
             isComplete sd selected = true /\
             ai_metadata t = None).
Proof.
  unfold main_panels.
  destruct selected as [t|].
  - destruct (isComplete sd (Some t)) eqn:Hc; cbn [negb andb app].
    + destruct (ai_metadata t) as [m|] eqn:Hm; cbn.
      * split; [lia|]. split; [discriminate|].
        intros (t' & Heq & _ & Hnone). inversion Heq; subst. congruence.
      * split; [lia|]. split; [|reflexivity].
        intros _. exists t. repeat split. exact Hm.
    + cbn. split; [lia|]. split; [discriminate|].
      intros (t' & _ & Hfalse & _). discriminate.
  - cbn. split; [lia|]. split; [discriminate|].
    intros (t' & Heq & _). discriminate.
Qed.

(** X15: a take whose metadata is present and non-empty always gets the
    insights panel, whatever the status payload says (missing, "error",
    "processing"): the error and progress panels are only for takes that do
    not count as complete. *)
Theorem metadata_shows_insights (sd : option Json) (t : Take) :
  has_metadata t = true ->
  main_panels sd (Some t) = [InsightsPanel].
Proof.
  intros H. unfold main_panels.
  rewrite (isComplete_of_metadata sd t H). cbn [negb andb app].
  pose proof (has_metadata_present t H) as Hp.
  destruct (ai_metadata t); [reflexivity | congruence].
Qed.

Lemma metadata_shows_insights_witness :
  main_panels (Some (JObj [("status", JStr "error")])) (Some take_B) = [InsightsPanel].
Proof.
  apply (@metadata_shows_insights (Some (JObj [("status", JStr "error")])) take_B).
  reflexivity.
Defined.

(** X16: a stale status can blank the main area.  [statusData] is not reset
    when another take is selected, so if it says "completed" and the poll
    for the newly selected take is rejected, the status stays "completed";
    a selected take without [ai_metadata] then gets no panel at all, and a
    take with metadata gets the insights panel. *)
Theorem stale_completed_status_blanks_panel
    (api : Backend) (takeId : Z) (st : StatusState) (w : World) (t : Take) :
  status_is "completed" (statusData st) = true ->
  is_fulfilled (processing_getStatus api takeId (requests w)) = false ->
  let st' := fst (pollStatus api true takeId st w) in
  statusData st' = statusData st /\
  main_panels (statusData st') (Some t) =
    match ai_metadata t with
    | Some _ => [InsightsPanel]
    | None => []
    end.
Proof.
  intros Hdone Hrej st'. subst st'.
  unfold pollStatus. rewrite getProcessingStatus_run.
  destruct (processing_getStatus api takeId (requests w)); [discriminate|].
  cbn -[main_panels].
  split; [reflexivity|].
  unfold main_panels, isComplete. rewrite Hdone. cbn.
  destruct (ai_metadata t); reflexivity.
Qed.

Lemma stale_completed_status_blanks_panel_witness :
  let st := {| statusData := Some (JObj [("status", JStr "completed")]);
               isPolling := false |} in
  let st' := fst (pollStatus backend_down true 9 st fresh_world) in
  statusData st' = statusData st /\
  main_panels (statusData st') (Some take_A) = [].
Proof.
  apply (@stale_completed_status_blanks_panel backend_down 9
           {| statusData := Some (JObj [("status", JStr "completed")]);
              isPolling := false |} fresh_world take_A);
    reflexivity.
Defined.

(* ===================================================================== *)
(** ** Further properties of the categorizer and of the gallery page *)
(* ===================================================================== *)

Lemma filed_under_filters (takes : list Take) :
  filed_under "Hesitation & Pauses" takes = filter (is_hesitation code_reading) takes /\
  filed_under "Laughter & Humor" takes = filter (is_laughter code_reading) takes /\
  filed_under "Emotional Peaks" takes = filter (is_emotional_peak code_reading) takes /\
  filed_under "Analytical & Technical" takes = filter (is_analytical code_reading) takes /\
  filed_under "Standard Dialogue" takes = filter (is_standard code_reading) takes.
Proof.
  unfold filed_under. rewrite categorizedResults_code_reading.
  repeat split.
Qed.

(** X17: the categorizer works take by take: filing a concatenation of two
    lists gives, under every key, the takes filed from the first list
    followed by those filed from the second.  In particular a take appended
    by a later poll never reorders or removes what was filed before. *)
Theorem categorizer_distributes_over_append (key : string) (l1 l2 : list Take) :
  filed_under key (l1 ++ l2) = filed_under key l1 ++ filed_under key l2.
Proof.
  unfold filed_under. rewrite !categorizedResults_code_reading.
  unfold expected_categories, bucket.
  rewrite !filter_app.
  destruct (String.eqb "Hesitation & Pauses" key); [reflexivity|].
  destruct (String.eqb "Laughter & Humor" key); [reflexivity|].
  destruct (String.eqb "Emotional Peaks" key); [reflexivity|].
  destruct (String.eqb "Analytical & Technical" key); [reflexivity|].
  destruct (String.eqb "Standard Dialogue" key); reflexivity.
Qed.

Lemma num_le_not_gt (q : Q) : num_le q 1 = true -> num_gt q 1 = false.
Proof.
  unfold num_gt, num_le, Qle_bool. simpl. intros H.
  apply Z.leb_le in H. apply Z.ltb_ge. lia.
Qed.

(** A take of Standard Dialogue satisfies no other predicate; the
    analytical and the emotional-peak predicates exclude each other. *)
Lemma standard_excludes_others (t : Take) :
  is_standard code_reading t = true ->
  is_hesitation code_reading t = false /\
  is_laughter code_reading t = false /\
  is_emotional_peak code_reading t = false /\
  is_analytical code_reading t = false.
Proof.
  unfold is_standard, is_hesitation, is_laughter, is_emotional_peak, is_analytical.
  cbn [code_reading r_hesitation r_laughter r_emotion].
  generalize (emotion_of t) as e. intros e H.
  apply andb_true_iff in H. destruct H as [H He].
  apply andb_true_iff in H. destruct H as [Hl Hp].
  apply negb_true_iff in Hl. apply num_le_not_gt in Hp.
  rewrite Hl, Hp. repeat split.
  - rewrite He. reflexivity.
  - destruct (String.eqb_spec e "neutral") as [->|]; [reflexivity|].
    destruct (String.eqb_spec e "unknown") as [->|]; [reflexivity|].
    discriminate.
Qed.

Lemma peak_excludes_analytical (t : Take) :
  is_emotional_peak code_reading t = true -> is_analytical code_reading t = false.
Proof.
  unfold is_emotional_peak, is_analytical. intros H.
  apply negb_true_iff in H. apply orb_false_iff in H. tauto.
Qed.

Lemma covered (t : Take) :
  is_hesitation code_reading t || is_laughter code_reading t ||
  is_emotional_peak code_reading t || is_analytical code_reading t ||
  is_standard code_reading t = true.
Proof.
  destruct (is_hesitation code_reading t) eqn:Hh; [reflexivity|].
  destruct (is_laughter code_reading t) eqn:Hl; [reflexivity|].
  destruct (is_emotional_peak code_reading t) eqn:Hp; [reflexivity|].
  destruct (is_analytical code_reading t) eqn:Ha; [reflexivity|].
  unfold is_hesitation, is_laughter, is_analytical, is_emotional_peak,
    is_standard in *.
  rewrite Hl, Ha in *. rewrite (num_gt_or_le _ Hh). simpl.
  rewrite orb_false_r in Hp. now apply negb_false_iff in Hp.
Qed.

(** X18: the sections are kept distinct.  A take filed under Standard
    Dialogue is filed under no other key, and no take is filed under both
    Analytical & Technical and Emotional Peaks. *)
Theorem sections_are_kept_distinct (takes : list Take) (t : Take) :
  (In t (filed_under "Standard Dialogue" takes) ->
   forall key, key <> "Standard Dialogue" -> ~ In t (filed_under key takes)) /\
  (In t (filed_under "Analytical & Technical" takes) ->
   ~ In t (filed_under "Emotional Peaks" takes)).
Proof.
  destruct (filed_under_filters takes) as (F1 & F2 & F3 & F4 & F5).
  split.
  - intros Hstd key Hkey Hk.
    rewrite F5 in Hstd. apply filter_In in Hstd. destruct Hstd as [Hin Hs].
    destruct (standard_excludes_others t Hs) as (N1 & N2 & N3 & N4).
    unfold filed_under in Hk.
    rewrite categorizedResults_code_reading in Hk.
    unfold expected_categories, bucket in Hk.
    destruct (String.eqb "Hesitation & Pauses" key);
      [apply filter_In in Hk; destruct Hk; congruence|].
    destruct (String.eqb "Laughter & Humor" key);
      [apply filter_In in Hk; destruct Hk; congruence|].
    destruct (String.eqb "Emotional Peaks" key);
      [apply filter_In in Hk; destruct Hk; congruence|].
    destruct (String.eqb "Analytical & Technical" key);
      [apply filter_In in Hk; destruct Hk; congruence|].
    destruct (String.eqb_spec "Standard Dialogue" key); [congruence|].
    contradiction.
  - rewrite F4, F3. intros Ha Hp.
    apply filter_In in Ha. destruct Ha as [_ Ha].
    apply filter_In in Hp. destruct Hp as [_ Hp].
    apply peak_excludes_analytical in Hp. congruence.
Qed.

Lemma sections_are_kept_distinct_witness :
  ~ In take_A (filed_under "Emotional Peaks" [take_A; take_B]).
Proof.
  destruct (sections_are_kept_distinct [take_A; take_B] take_A) as [H _].
  apply H.
  - vm_compute. left. reflexivity.
  - discriminate.
Defined.

Lemma length_filter_cons (p : Take -> bool) (t : Take) (l : list Take) :
  List.length (filter p (t :: l)) = (Nat.b2n (p t) + List.length (filter p l))%nat.
Proof. simpl. destruct (p t); reflexivity. Qed.

Lemma list_sum_visible (l : CategorizedTakes) :
  list_sum (map (fun entry => List.length (snd entry))
              (filter (fun entry => (0 <? List.length (snd entry))%nat) l)) =
  list_sum (map (fun entry => List.length (snd entry)) l).
Proof.
  induction l as [|[k items] l IH]; simpl; [reflexivity|].
  destruct items as [|x items]; simpl; rewrite IH; reflexivity.
Qed.

Lemma clips_found_memberships (takes : list Take) :
  clips_found takes = list_sum (map memberships takes).
Proof.
  unfold clips_found, visible_sections.
  rewrite list_sum_visible, categorizedResults_code_reading.
  unfold expected_categories. cbn [map snd list_sum].
  induction takes as [|t rest IH]; [reflexivity|].
  rewrite !length_filter_cons.
  change (list_sum (map memberships (t :: rest)))
    with (memberships t + list_sum (map memberships rest))%nat.
  rewrite <- IH. unfold memberships, list_sum. cbn [fold_right]. lia.
Qed.

Lemma memberships_bounds (t : Take) :
  (1 <= memberships t <= 3)%nat.
Proof.
  pose proof (covered t) as Hc. unfold memberships.
  destruct (is_standard code_reading t) eqn:Hs.
  - destruct (standard_excludes_others t Hs) as (-> & -> & -> & ->). simpl. lia.
  - destruct (is_emotional_peak code_reading t) eqn:Hp.
    + rewrite (peak_excludes_analytical t Hp).
      destruct (is_hesitation code_reading t), (is_laughter code_reading t);
        simpl; lia.
    + destruct (is_hesitation code_reading t), (is_laughter code_reading t),
        (is_analytical code_reading t); simpl in *; try lia; discriminate.
Qed.

(** X19: the clip counts shown in the section headers add up to at least
    the number of takes and at most three times that number: every take is
    counted, and none more than three times. *)
Theorem clips_found_bounds (takes : list Take) :
  (List.length takes <= clips_found takes <= 3 * List.length takes)%nat.
Proof.
  rewrite clips_found_memberships.
  induction takes as [|t rest IH]; simpl; [lia|].
  pose proof (memberships_bounds t). lia.
Qed.

Lemma visible_sections_empty_iff (takes : list Take) :
  visible_sections takes = [] <-> takes = [].
Proof.
  split.
  - intros H. pose proof (clips_found_bounds takes) as Hb.
    unfold clips_found in Hb. rewrite H in Hb. simpl in Hb.
    destruct takes; [reflexivity | simpl in Hb; lia].
  - intros ->. reflexivity.
Qed.

(** X20: the gallery after its initial load.  Whether the request for the
    takes is fulfilled or rejected, the spinner is gone; the page then shows
    the non-empty sections, and shows the "no behavioral data" notice
    exactly when it shows no section.  A rejected request leaves the list
    as it was, so after a failed first load the page is the empty notice. *)
Theorem gallery_after_load (response : Settled (list Take)) (st : GalleryState) :
  exists sections notice,
    gallery_render (gallery_fetchTakes response st) = Gallery sections notice /\
    (notice = true <-> sections = []) /\
    Forall (fun entry => snd entry <> []) sections /\
    (is_fulfilled response = false ->
     gallery_fetchTakes response st =
       {| gallery_takes := gallery_takes st; isLoading := false |}) /\
    (is_fulfilled response = false -> gallery_takes st = [] ->
     sections = [] /\ notice = true).
Proof.
  set (st' := gallery_fetchTakes response st).
  exists (visible_sections (gallery_takes st')),
         (List.length (gallery_takes st') =? 0)%nat.
  assert (Hdone : isLoading st' = false)
    by (subst st'; destruct response; reflexivity).
  split; [unfold gallery_render; now rewrite Hdone|].
  split.
  { rewrite visible_sections_empty_iff, Nat.eqb_eq.
    destruct (gallery_takes st'); simpl; split; congruence. }
  split.
  { unfold visible_sections. apply Forall_forall. intros entry Hin.
    apply filter_In in Hin. destruct Hin as [_ Hpos].
    destruct (snd entry); [discriminate | discriminate]. }
  split.
  - intros Hrej. subst st'. destruct response; [discriminate | reflexivity].
  - intros Hrej Hempty. subst st'. destruct response; [discriminate|].
    simpl. rewrite Hempty. split; reflexivity.
Qed.

(** X21: the badges of a card agree with the sections.  For a take of the
    list, the card shows the hesitation badge exactly when the take is
    filed under Hesitation & Pauses, the laughter badge exactly when it is
    filed under Laughter & Humor, a coloured emotion label (tense, happy,
    sad, awkward) only if it is filed under Emotional Peaks, and the label
    itself is the emotion the categorizer read. *)
Theorem card_badges_match_sections (takes : list Take) (t : Take) :
  In t takes ->
  (card_hesitation_badge (takeCard t) = true <->
   In t (filed_under "Hesitation & Pauses" takes)) /\
  (card_laughter_badge (takeCard t) = true <->
   In t (filed_under "Laughter & Humor" takes)) /\
  (card_tone (takeCard t) <> TonePlain ->
   In t (filed_under "Emotional Peaks" takes)) /\
  card_emotion (takeCard t) = emotion_of t.
Proof.
  intros Hin.
  destruct (filed_under_filters takes) as (F1 & F2 & F3 & _ & _).
  rewrite F1, F2, F3, !filter_In.
  change (card_hesitation_badge (takeCard t)) with (is_hesitation code_reading t).
  change (card_laughter_badge (takeCard t)) with (is_laughter code_reading t).
  change (card_emotion (takeCard t)) with (emotion_of t).
  split; [tauto|]. split; [tauto|]. split; [|reflexivity].
  intros Htone. split; [exact Hin|].
  unfold is_emotional_peak. cbn [code_reading r_emotion].
  change (card_tone (takeCard t)) with
    (if String.eqb (emotion_of t) "tense" then ToneRed
     else if String.eqb (emotion_of t) "happy" then ToneGreen
     else if String.eqb (emotion_of t) "sad" then ToneBlue
     else if String.eqb (emotion_of t) "awkward" then TonePurple
     else TonePlain) in Htone.
  revert Htone. generalize (emotion_of t) as e. intros e Htone.
  destruct (String.eqb e "tense") eqn:E1;
    [apply String.eqb_eq in E1; subst e; reflexivity|].
  destruct (String.eqb e "happy") eqn:E2;
    [apply String.eqb_eq in E2; subst e; reflexivity|].
  destruct (String.eqb e "sad") eqn:E3;
    [apply String.eqb_eq in E3; subst e; reflexivity|].
  destruct (String.eqb e "awkward") eqn:E4;
    [apply String.eqb_eq in E4; subst e; reflexivity|].
  congruence.
Qed.

Lemma card_badges_match_sections_witness :
  (card_hesitation_badge (takeCard take_hesitating) = true <->
   In take_hesitating
     (filed_under "Hesitation & Pauses" [take_laughing_happy; take_hesitating])) /\
  (card_laughter_badge (takeCard take_hesitating) = true <->
   In take_hesitating
     (filed_under "Laughter & Humor" [take_laughing_happy; take_hesitating])) /\
  (card_tone (takeCard take_hesitating) <> TonePlain ->
   In take_hesitating
     (filed_under "Emotional Peaks" [take_laughing_happy; take_hesitating])) /\
  card_emotion (takeCard take_hesitating) = emotion_of take_hesitating.
Proof.
  apply (@card_badges_match_sections
           [take_laughing_happy; take_hesitating] take_hesitating).
  simpl. right. left. reflexivity.
Defined.

(** The keys of the object literal are the only ones. *)
Lemma filed_under_cases (key : string) (takes : list Take) :
  filed_under key takes = filter (is_hesitation code_reading) takes \/
  filed_under key takes = filter (is_laughter code_reading) takes \/
  filed_under key takes = filter (is_emotional_peak code_reading) takes \/
  filed_under key takes = filter (is_analytical code_reading) takes \/
  filed_under key takes = filter (is_standard code_reading) takes \/
  filed_under key takes = [].
Proof.
  unfold filed_under. rewrite categorizedResults_code_reading.
  unfold expected_categories, bucket.
  destruct (String.eqb "Hesitation & Pauses" key); [tauto|].
  destruct (String.eqb "Laughter & Humor" key); [tauto|].
  destruct (String.eqb "Emotional Peaks" key); [tauto|].
  destruct (String.eqb "Analytical & Technical" key); [tauto|].
  destruct (String.eqb "Standard Dialogue" key); tauto.
Qed.

(** X22: a section only holds takes of the input, and holds each at most
    once when the input lists each take once: the categorizer neither
    invents nor repeats a card within a section. *)
Theorem sections_hold_input_takes_once (key : string) (takes : list Take) :
  NoDup takes ->
  NoDup (filed_under key takes) /\
  (forall t, In t (filed_under key takes) -> In t takes) /\
  (List.length (filed_under key takes) <= List.length takes)%nat.
Proof.
  intros Hnd.
  destruct (filed_under_cases key takes) as [H|[H|[H|[H|[H|H]]]]]; rewrite H;
    try (split; [now apply NoDup_filter|];
         split; [intros t Ht; now apply filter_In in Ht | apply filter_length_le]).
  split; [constructor|]. split; [intros t []| simpl; lia].
Qed.

Lemma sections_hold_input_takes_once_witness :
  NoDup (filed_under "Emotional Peaks" [take_A; take_B; take_C]) /\
  (forall t, In t (filed_under "Emotional Peaks" [take_A; take_B; take_C]) ->
             In t [take_A; take_B; take_C]) /\
  (List.length (filed_under "Emotional Peaks" [take_A; take_B; take_C]) <=
   List.length [take_A; take_B; take_C])%nat.
Proof.
  apply (@sections_hold_input_takes_once "Emotional Peaks" [take_A; take_B; take_C]).
  repeat constructor; simpl; intuition discriminate.
Defined.

(** A take scored by the backend before its metadata arrives has no panel,
    even with no status at all. *)
Example scored_take_without_metadata_has_no_panel :
  main_panels None (Some take_scored_without_metadata) = [].
Proof. reflexivity. Qed.

(* ===================================================================== *)
(** ** [Object.keys] on the metadata: what counts as non-empty *)
(* ===================================================================== *)

Lemma nodup_nil_iff (l : list string) : nodup string_dec l = [] <-> l = [].
Proof.
  split; [|intros ->; reflexivity].
  destruct l as [|x l]; [reflexivity|]. intros H.
  assert (Hin : In x (nodup string_dec (x :: l)))
    by (apply nodup_In; now left).
  rewrite H in Hin. contradiction.
Qed.

(** The metadata counts as non-empty exactly when the object has an own
    key: a field with a value, a key with a null value, or a key outside
    the interface. *)
Lemma has_metadata_iff (t : Take) :
  has_metadata t = true <->
  exists meta,
    ai_metadata t = Some meta /\
    (cv meta <> None \/ audio meta <> None \/ nlp meta <> None \/
     score_breakdown meta <> None \/ emotion meta <> None \/
     other_keys meta <> []).
Proof.
  unfold has_metadata, key_count, own_keys.
  destruct (ai_metadata t) as [meta|].
  - rewrite Nat.ltb_lt.
    split.
    + intros Hpos. exists meta. split; [reflexivity|].
      destruct (cv meta); [left; discriminate|].
      destruct (audio meta); [right; left; discriminate|].
      destruct (nlp meta); [right; right; left; discriminate|].
      destruct (score_breakdown meta); [right; right; right; left; discriminate|].
      destruct (emotion meta); [right; right; right; right; left; discriminate|].
      right; right; right; right; right. intros Hnil.
      rewrite Hnil in Hpos. simpl in Hpos. lia.
    + intros (m & Hm & Hkey). inversion Hm; subst m.
      destruct (nodup string_dec _) as [|k ks] eqn:E; [|simpl; lia].
      apply (proj1 (nodup_nil_iff _)) in E.
      destruct (cv meta); [simpl in E; discriminate|].
      destruct (audio meta); [simpl in E; discriminate|].
      destruct (nlp meta); [simpl in E; discriminate|].
      destruct (score_breakdown meta); [simpl in E; discriminate|].
      destruct (emotion meta); [simpl in E; discriminate|].
      simpl in E. intuition congruence.
  - split; [discriminate|]. intros (m & Hm & _). discriminate.
Qed.

Example null_valued_key_counts_as_metadata :
  has_metadata take_null_emotion = true /\
  has_metadata take_unlisted_key = true /\
  has_metadata take_empty_metadata = false /\
  has_metadata take_A = false.
Proof. repeat split. Qed.

(** With [A] (no metadata), then a take whose metadata is
    [{ emotion: null }], then [B]: the first take with a non-empty key
    list is the second one. *)
Example auto_select_counts_every_own_key :
  selectedTake
    (fetchTakes sample_parseInt true None
       (Fulfilled {| data := [take_A; take_null_emotion; take_B] |})
       nothing_selected)
  = Some take_null_emotion.
Proof. reflexivity. Qed.

Example own_key_without_value_shows_insights :
  main_panels None (Some take_null_emotion) = [InsightsPanel] /\
  main_panels (Some (JObj [("status", JStr "error")])) (Some take_unlisted_key)
    = [InsightsPanel] /\
  main_panels None (Some take_empty_metadata) = [ProgressPanel].
Proof. repeat split. Qed.
